(** * InstagramPostsFetcher: the resumable pagination loop

    A shallow embedding of [ig_posts_fecther.py]: the HTTP fetcher, the two
    JSON checkpoint files (the post collection and the pagination state) and
    the fetch-append-checkpoint loop that ties them together.

    - Python values are the values [json.load] can produce; a [dict] is an
      association list in insertion order.  A [str] is the [string] of its
      code points in UTF-8, a surrogate code point (which a JSON escape can
      put into a [str]) in the three bytes ED A0..BF 80..BF.
    - A file is what [open] and [json.load] make of it: bytes that do not
      decode, no text, text that is not JSON, or a JSON document given by its
      value.  [json.dump] with [ensure_ascii=False] writes a document that
      loads as the value dumped when every string of the value can be encoded
      as UTF-8; on a string with a surrogate it raises, and the file is left
      with the text written so far.
    - The remote end answers the [n]-th request made in the world; nothing is
      assumed about its answers unless a statement asks for [stable].
    - The program is written in a state-and-exception monad over a [world]:
      the files on disk, the number of requests made so far and the trace of
      observable events (console lines, HTTP requests, file writes).  What a
      statement did before it raised stays done.  Printing a line is taken
      to succeed.
    - The [while True] loop takes a fuel, the number of iterations it may
      make; a run that uses it up is reported as still [Running]. *)

From Stdlib Require Import ZArith Ascii String List Sorted Floats Lia.
From stdpp Require Import gmap strings.
Import ListNotations.

Set Warnings "-register-all".
Open Scope string_scope.
Open Scope list_scope.

(** ** Python values *)

(** What [json.load] returns: [None], a [bool], an [int], a [float], a [str],
    a [list] or a [dict] (its keys in insertion order, each listed once;
    [dict_lookup] stops at the first binding of a key). *)
Inductive json :=
| JNull
| JBool (b : bool)
| JInt (n : Z)
| JFloat (x : float)
| JStr (s : string)
| JArr (l : list json)
| JObj (d : list (string * json)).

(** The exceptions the program can meet. *)
Inductive exn :=
| JSONDecodeError
| UnicodeDecodeError
| FileNotFoundError
| AttributeError
| TypeError
| RequestException
| UnicodeEncodeError.

#[global] Instance exn_eq_dec : EqDecision exn.
Proof. solve_decision. Defined.

Inductive res (A : Type) :=
| Ok (a : A)
| Raise (e : exn).
Arguments Ok {A} a.
Arguments Raise {A} e.

Definition bindR {A B} (r : res A) (k : A -> res B) : res B :=
  match r with
  | Ok a => k a
  | Raise e => Raise e
  end.

Notation "'let+' x ':=' r 'in' k" := (bindR r (fun x => k))
  (at level 10, x name, r at level 100, k at level 200).

(** [bool(v)]: the test of [if v:] and [if not v:]. *)
Definition truthy (v : json) : bool :=
  match v with
  | JNull => false
  | JBool b => b
  | JInt n => negb (n =? 0)%Z
  | JFloat x => negb (PrimFloat.eqb x 0%float)
  | JStr s => match s with EmptyString => false | String _ _ => true end
  | JArr l => match l with [] => false | _ :: _ => true end
  | JObj d => match d with [] => false | _ :: _ => true end
  end.

Fixpoint dict_lookup (k : string) (d : list (string * json)) : option json :=
  match d with
  | [] => None
  | (k', v) :: rest => if String.eqb k k' then Some v else dict_lookup k rest
  end.

(** [v.get(k, default)]; only a dict has the method. *)
Definition dict_get (v : json) (k : string) (default : json) : res json :=
  match v with
  | JObj d => Ok (match dict_lookup k d with Some x => x | None => default end)
  | _ => Raise AttributeError
  end.

(** [v.append(x)]; only a list has the method. *)
Definition list_append (v x : json) : res json :=
  match v with
  | JArr l => Ok (JArr (l ++ [x]))
  | _ => Raise AttributeError
  end.

(** [v += 1] for the counter: [int], [bool] and [float] add, the rest raise. *)
Definition add_one (v : json) : res json :=
  match v with
  | JInt n => Ok (JInt (n + 1))
  | JBool b => Ok (JInt (Z.b2z b + 1))
  | JFloat x => Ok (JFloat (x + 1)%float)
  | _ => Raise TypeError
  end.

(** [len(v)]. *)
Definition py_len (v : json) : res Z :=
  match v with
  | JArr l => Ok (Z.of_nat (List.length l))
  | JObj d => Ok (Z.of_nat (List.length d))
  | JStr s => Ok (Z.of_nat (String.length s))
  | _ => Raise TypeError
  end.

(** The items a [for x in v] visits: the elements of a list, the keys of a
    dict, the characters of a string. *)
Definition py_iter (v : json) : res (list json) :=
  match v with
  | JArr l => Ok l
  | JObj d => Ok (map (fun kv => JStr (fst kv)) d)
  | JStr s => Ok (map (fun c => JStr (String c EmptyString)) (list_ascii_of_string s))
  | _ => Raise TypeError
  end.

(** ** What UTF-8 can encode *)

(** A surrogate code point in the string: the byte ED followed by a byte
    from A0 to BF. *)
Fixpoint has_surrogate (s : string) : bool :=
  match s with
  | EmptyString => false
  | String c1 rest =>
      match rest with
      | EmptyString => false
      | String c2 _ =>
          ((nat_of_ascii c1 =? 237)%nat
           && (160 <=? nat_of_ascii c2)%nat && (nat_of_ascii c2 <=? 191)%nat)
          || has_surrogate rest
      end
  end.

(** Whether [json.dump(v, f, ensure_ascii=False)] can write [v] to a UTF-8
    file: no string in it, key or value, holds a surrogate. *)
Fixpoint encodable (v : json) : bool :=
  match v with
  | JStr s => negb (has_surrogate s)
  | JArr l => forallb encodable l
  | JObj d =>
      forallb (fun kv => let '(k, x) := kv in
                         negb (has_surrogate k) && encodable x) d
  | _ => true
  end.

(** ** Files, HTTP and the world *)

(** A file on disk, as [open(path, "r", encoding="utf-8")] followed by
    [json.load] sees it. *)
Inductive file :=
| Undecodable           (* bytes that are not UTF-8 text *)
| Empty                 (* zero bytes *)
| Malformed             (* other text that is not a JSON document *)
| Document (v : json).  (* a JSON document, with the value it denotes *)

Definition json_load (f : file) : res json :=
  match f with
  | Undecodable => Raise UnicodeDecodeError
  | Empty => Raise JSONDecodeError
  | Malformed => Raise JSONDecodeError
  | Document v => Ok v
  end.

(** What [json.dump] leaves of the file it was writing when it raises on
    [v]. It writes piece by piece, and the first piece that holds a surrogate
    is not written: nothing is, when that is the first piece (a string, or a
    list opening on one); otherwise the text breaks off inside a list or an
    object. *)
Definition truncated (v : json) : file :=
  match v with
  | JStr _ => Empty
  | JArr (JStr s :: _) => if has_surrogate s then Empty else Malformed
  | _ => Malformed
  end.

Record request := Request {
  url : string;
  params : list (string * json);
  headers : list (string * string)
}.

(** [status_code] and what [response.json()] gives: [None] when the payload
    is not JSON. *)
Record response := Response {
  status_code : Z;
  payload : option json
}.

Inductive http_outcome :=
| ConnectionFailed
| Answered (r : response).

(** The lines the program prints. *)
Inductive message :=
| MsgFetching (batch_size : Z) (downloaded_count : json)
| MsgFailed (status : Z)
| MsgNoResponse
| MsgNoMorePosts
| MsgSaved (n : Z) (output_file : string)
| MsgEndOfPages.

Inductive event :=
| Print (m : message)
| HttpGet (r : request)
| WriteFile (path : string) (v : json)
| WriteFailed (path : string).

Record world := World {
  files : gmap string file;
  requests : nat;
  trace : list event
}.

(** ** The monad of the program *)

Definition M (A : Type) : Type := world -> world * res A.

Definition ret {A} (a : A) : M A := fun w => (w, Ok a).

Definition bind {A B} (m : M A) (k : A -> M B) : M B :=
  fun w =>
    match m w with
    | (w', Ok a) => k a w'
    | (w', Raise e) => (w', Raise e)
    end.

Notation "'let*' x ':=' m 'in' k" := (bind m (fun x => k))
  (at level 10, x name, m at level 100, k at level 200).

Definition lift {A} (r : res A) : M A := fun w => (w, r).

Definition emit (e : event) : M unit :=
  fun w => (World (files w) (requests w) (trace w ++ [e]), Ok tt).

Definition print (m : message) : M unit := emit (Print m).

(** [try: m  except e: h]. *)
Definition try_except {A} (m : M A) (e : exn) (h : M A) : M A :=
  fun w =>
    match m w with
    | (w', Raise e') => if decide (e' = e) then h w' else (w', Raise e')
    | r => r
    end.

(** [os.path.exists(path)]. *)
Definition path_exists (path : string) : M bool :=
  fun w => (w, Ok (bool_decide (is_Some (files w !! path)))).

(** [with open(path, "r", encoding="utf-8") as f: json.load(f)]. *)
Definition read_json (path : string) : M json :=
  fun w =>
    match files w !! path with
    | Some f => (w, json_load f)
    | None => (w, Raise FileNotFoundError)
    end.

(** [with open(path, "w", encoding="utf-8") as f: json.dump(v, f, ...)]:
    the file is opened, which empties it, and the value is dumped into it;
    when the dump raises, the file is closed with what was written. *)
Definition write_json (path : string) (v : json) : M unit :=
  fun w =>
    if encodable v then
      (World (<[path := Document v]> (files w)) (requests w)
             (trace w ++ [WriteFile path v]), Ok tt)
    else
      (World (<[path := truncated v]> (files w)) (requests w)
             (trace w ++ [WriteFailed path]), Raise UnicodeEncodeError).

(** ** The program *)

Definition base_url : string := "https://www.instagram.com/graphql/query/".
Definition doc_id : string := "789826179xxxxxxxx".
Definition connection : string :=
  "xdt_api__v1__feed__user_timeline_graphql_connection".

(** The [variables] dict of [fetch_instagram_posts]; the cursor is added only
    when it is truthy. *)
Definition variables (username : string) (after_cursor : json) (post_count : Z)
  : json :=
  JObj ([("username", JStr username);
         ("data", JObj [("count", JInt post_count);
                        ("include_relationship_info", JBool true);
                        ("latest_besties_reel_media", JBool true);
                        ("latest_reel_media", JBool true)]);
         ("__relay_internal__pv__PolarisFeedShareMenurelayprovider", JBool false);
         ("first", JInt post_count)]
        ++ (if truthy after_cursor then [("after", after_cursor)] else [])).

(** The request sent; the [variables] parameter is kept as the value whose
    [json.dumps] text goes on the wire. *)
Definition build_request (username : string) (after_cursor : json)
  (post_count : Z) : request :=
  {| url := base_url;
     params := [("variables", variables username after_cursor post_count);
                ("doc_id", JStr doc_id);
                ("server_timestamps", JBool true)];
     headers := [("User-Agent", "Mozilla/5.0");
                 ("Authorization", "Bearer YOUR_ACCESS_TOKEN")] |}.

(** [response.json()]. *)
Definition response_json (r : response) : res json :=
  match payload r with
  | Some v => Ok v
  | None => Raise JSONDecodeError
  end.

(** The edges and the page information of a response (lines 225-227 and
    246-248 of the source). *)
Definition get_edges (response : json) : res json :=
  let+ data := dict_get response "data" (JObj []) in
  let+ conn := dict_get data connection (JObj []) in
  dict_get conn "edges" (JArr []).

Definition get_page_info (response : json) : res json :=
  let+ data := dict_get response "data" (JObj []) in
  let+ conn := dict_get data connection (JObj []) in
  dict_get conn "page_info" (JObj []).

(** The body of [for edge in edges], over the items still to visit. *)
Fixpoint for_edge_in (edges : list json) (all_posts downloaded_count : json)
  : res (json * json) :=
  match edges with
  | [] => Ok (all_posts, downloaded_count)
  | edge :: rest =>
      let+ post_node := dict_get edge "node" (JObj []) in
      let+ all_posts := list_append all_posts post_node in
      let+ downloaded_count := add_one downloaded_count in
      for_edge_in rest all_posts downloaded_count
  end.

(** The [state] dict of [save_resume_state]. *)
Definition state_dict (after_cursor post_count : json) : json :=
  JObj [("after_cursor", after_cursor); ("post_count", post_count)].

(** The local variables of [iterate_and_save_posts] that live across
    iterations. *)
Record locals := Locals {
  all_posts : json;
  after_cursor : json;
  downloaded_count : json
}.

(** How an iteration of [while True] ends. *)
Inductive control :=
| Continue (st : locals)
| Break.

(** How a run ends: the function returned, or the fuel ran out with the loop
    still going. *)
Inductive status :=
| Returned
| Running (st : locals).

Section Program.

(** The remote end: the answer to the [n]-th request of the world. *)
Variable remote : nat -> request -> http_outcome.

(** [requests.get(base_url, params=params, headers=headers)]. *)
Definition requests_get (req : request) : M response :=
  fun w =>
    let w' := World (files w) (S (requests w)) (trace w ++ [HttpGet req]) in
    match remote (requests w) req with
    | ConnectionFailed => (w', Raise RequestException)
    | Answered r => (w', Ok r)
    end.

Definition fetch_instagram_posts (username : string) (after_cursor : json)
  (post_count : Z) : M json :=
  let* response := requests_get (build_request username after_cursor post_count) in
  if (status_code response =? 200)%Z then
    lift (response_json response)
  else
    let* _ := print (MsgFailed (status_code response)) in
    ret JNull.

Definition load_resume_state (resume_file : string) : M (json * json) :=
  let* found := path_exists resume_file in
  if found then
    let* state := read_json resume_file in
    let* cursor := lift (dict_get state "after_cursor" JNull) in
    let* count := lift (dict_get state "post_count" (JInt 0)) in
    ret (cursor, count)
  else
    ret (JNull, JInt 0).

Definition save_resume_state (resume_file : string)
  (after_cursor post_count : json) : M unit :=
  let state := state_dict after_cursor post_count in
  write_json resume_file state.

Definition load_existing_posts (output_file : string) : M json :=
  let* found := path_exists output_file in
  if found then
    try_except (read_json output_file) JSONDecodeError (ret (JArr []))
  else
    ret (JArr []).

(** The body of [while True] once the fetch has answered (lines 218-256). *)
Definition process_page (output_file resume_file : string)
  (response : json) (st : locals) : M control :=
  if negb (truthy response) then
    let* _ := print MsgNoResponse in
    ret Break
  else
    let* edges := lift (get_edges response) in
    if negb (truthy edges) then
      let* _ := print MsgNoMorePosts in
      ret Break
    else
      let* items := lift (py_iter edges) in
      let* grown := lift (for_edge_in items (all_posts st) (downloaded_count st)) in
      let all_posts := fst grown in
      let downloaded_count := snd grown in
      let* _ := write_json output_file all_posts in
      let* n := lift (py_len all_posts) in
      let* _ := print (MsgSaved n output_file) in
      let* page_info := lift (get_page_info response) in
      let* more := lift (dict_get page_info "has_next_page" JNull) in
      if truthy more then
        let* after_cursor := lift (dict_get page_info "end_cursor" JNull) in
        let* _ := save_resume_state resume_file after_cursor downloaded_count in
        ret (Continue (Locals all_posts after_cursor downloaded_count))
      else
        let* _ := print MsgEndOfPages in
        ret Break.

(** One pass through the body of [while True] (lines 213-256). *)
Definition iteration (username output_file resume_file : string)
  (batch_size : Z) (st : locals) : M control :=
  let* _ := print (MsgFetching batch_size (downloaded_count st)) in
  let* response := fetch_instagram_posts username (after_cursor st) batch_size in
  process_page output_file resume_file response st.

Fixpoint loop (fuel : nat) (username output_file resume_file : string)
  (batch_size : Z) (st : locals) : M status :=
  match fuel with
  | O => ret (Running st)
  | S fuel' =>
      let* c := iteration username output_file resume_file batch_size st in
      match c with
      | Continue st' => loop fuel' username output_file resume_file batch_size st'
      | Break => ret Returned
      end
  end.

Definition iterate_and_save_posts (fuel : nat)
  (username output_file resume_file : string) (batch_size : Z) : M status :=
  let* all_posts := load_existing_posts output_file in
  let* state := load_resume_state resume_file in
  loop fuel username output_file resume_file batch_size
       (Locals all_posts (fst state) (snd state)).

End Program.

(** ** Reading a trace *)

(** The [post_count] an event stores in the state file, when the event is a
    write of a state to [resume_file]. *)
Definition state_write (resume_file : string) (e : event) : option json :=
  match e with
  | WriteFile path (JObj d) =>
      if String.eqb path resume_file then dict_lookup "post_count" d else None
  | _ => None
  end.

Definition written_counts (resume_file : string) (evs : list event)
  : list json :=
  omap (state_write resume_file) evs.

Definition is_write (e : event) : bool :=
  match e with
  | WriteFile _ _ => true
  | WriteFailed _ => true
  | _ => false
  end.

Definition writes_to (path : string) (e : event) : bool :=
  match e with
  | WriteFile p _ => String.eqb p path
  | WriteFailed p => String.eqb p path
  | _ => false
  end.

(** The remote answers a request the same way whenever it is asked. *)
Definition stable (remote : nat -> request -> http_outcome) : Prop :=
  forall n m req, remote n req = remote m req.

(** The posts a page adds: the [node] of each edge. *)
Definition node_of (edge : json) : res json := dict_get edge "node" (JObj []).

(** ** Statements that only look at the files *)

(** The files of a world, with no request made and nothing traced yet. *)
Definition bare (w : world) : world := World (files w) 0 [].

(** A statement is uniform when what it does to the files and what it returns
    depend on the files alone, and it only adds to the request count and to
    the trace. *)
Definition uniform {A} (m : M A) : Prop :=
  forall w,
    m w = (World (files (fst (m (bare w))))
                 (requests w + requests (fst (m (bare w))))
                 (trace w ++ trace (fst (m (bare w)))),
           snd (m (bare w))).

(** ** Sample data *)

Module Sample.

(** The file names of the entry point. *)
Definition output_file : string := "instagram_posts_natgeo_01.json".
Definition resume_file : string := "resume_state_natgeo_01.json".

Definition post (k : Z) : json := JObj [("id", JInt k)].
Definition edge (k : Z) : json := JObj [("node", post k)].

(** A response body with the given edges and page information. *)
Definition page (edges : list json) (has_next_page : bool) (end_cursor : json)
  : json :=
  JObj [("data",
         JObj [(connection,
                JObj [("edges", JArr edges);
                      ("page_info",
                       JObj [("has_next_page", JBool has_next_page);
                             ("end_cursor", end_cursor)])])])].

Definition ok (body : json) : http_outcome :=
  Answered (Response 200 (Some body)).

(** The cursor a request carries, [None] when it carries none. *)
Definition cursor_of (req : request) : json :=
  match dict_lookup "variables" (params req) with
  | Some (JObj d) =>
      match dict_lookup "after" d with
      | Some c => c
      | None => JNull
      end
  | _ => JNull
  end.

(** A remote with three pages, reached through the cursors [c1] and [c2]. *)
Definition three_pages (n : nat) (req : request) : http_outcome :=
  match cursor_of req with
  | JNull => ok (page [edge 1; edge 2] true (JStr "c1"))
  | JStr c =>
      if String.eqb c "c1" then ok (page [edge 3] true (JStr "c2"))
      else if String.eqb c "c2" then ok (page [edge 4] false JNull)
      else Answered (Response 404 None)
  | _ => Answered (Response 404 None)
  end.

(** A remote whose every answer is the same. *)
Definition always (o : http_outcome) (n : nat) (req : request) : http_outcome := o.

Definition disk (fs : gmap string file) : world := World fs 0 [].

(** A first run: nothing on disk. *)
Definition fresh : world := disk ∅.

(** A hundred posts and the state of the scenario of the specification. *)
Definition hundred : list json := map post (map Z.of_nat (seq 0 100)).

Definition resumed : world :=
  disk (<[output_file := Document (JArr hundred)]>
          (<[resume_file := Document (state_dict (JStr "abc123") (JInt 100))]> ∅)).

Definition last_page : json := page [edge 100; edge 101] false JNull.

Definition start : locals := Locals (JArr []) JNull (JInt 0).

End Sample.

(** ** Reading the writes of a run *)

(** What a write of a run that started with the collection [l] looks like:
    the collection with more posts at its end, written to [out], or a state,
    written to [rsm]. *)
Definition grows_from (l : list json) (out rsm : string) (e : event) : Prop :=
  match e with
  | WriteFile p v =>
      (p = out /\ exists extra, v = JArr (l ++ extra)) \/
      (p = rsm /\ exists cursor count, v = state_dict cursor count)
  | WriteFailed p => p = out \/ p = rsm
  | _ => True
  end.

Definition is_failed_write (e : event) : bool :=
  match e with
  | WriteFailed _ => true
  | _ => false
  end.

(** A write that fails is the last thing a statement does. *)
Definition fails_last {A} (evs : list event) (r : res A) : Prop :=
  Forall (fun e => is_failed_write e = false) evs \/
  exists pre p,
    evs = pre ++ [WriteFailed p] /\
    Forall (fun e => is_failed_write e = false) pre /\
    r = Raise UnicodeEncodeError.

(** A page the loop can append and go on from: edges that are objects, a
    truthy [has_next_page], and no surrogate in the posts or in the cursor. *)
Definition next_page (response : json) : Prop :=
  exists items nodes pi more cursor,
    get_edges response = Ok (JArr items) /\ items <> [] /\
    Forall2 (fun e n => node_of e = Ok n) items nodes /\
    encodable (JArr nodes) = true /\
    get_page_info response = Ok pi /\
    dict_get pi "has_next_page" JNull = Ok more /\ truthy more = true /\
    dict_get pi "end_cursor" JNull = Ok cursor /\ encodable cursor = true.

(** The request [fetch_instagram_posts] builds around its [variables]. *)
Definition request_with (variables : json) : request :=
  {| url := base_url;
     params := [("variables", variables);
                ("doc_id", JStr doc_id);
                ("server_timestamps", JBool true)];
     headers := [("User-Agent", "Mozilla/5.0");
                 ("Authorization", "Bearer YOUR_ACCESS_TOKEN")] |}.

(** A value [edge.get] can be called on. *)
Definition is_dict (v : json) : bool :=
  match v with
  | JObj _ => true
  | _ => false
  end.

(** ** The standalone loader *)

(** [type(v)], as an f-string prints it. *)
Definition type_name (v : json) : string :=
  match v with
  | JNull => "<class 'NoneType'>"
  | JBool _ => "<class 'bool'>"
  | JInt _ => "<class 'int'>"
  | JFloat _ => "<class 'float'>"
  | JStr _ => "<class 'str'>"
  | JArr _ => "<class 'list'>"
  | JObj _ => "<class 'dict'>"
  end.

(** The lines [load_json_file] prints. *)
Inductive loader_line :=
| LineIsList
| LineNotList
| LineType (name : string)
| LineNotFound (file_path : string)
| LineNotJson (file_path : string)
| LineUtf8Error
| LineLatin1Loaded
| LineLatin1Error
| LineCheckEncoding
| LineUnexpectedLatin1 (e : exn)
| LineUnexpected (e : exn).

(** The [isinstance(data, list)] test that ends both [try] blocks: the list
    is returned, anything else is reported and the function falls through to
    its end, returning [None]. *)
Definition return_if_list (data : json) : list loader_line * res json :=
  match data with
  | JArr _ => ([LineIsList], Ok data)
  | _ => ([LineNotList; LineType (type_name data)], Ok JNull)
  end.

(** [with open(file_path, 'r', encoding='utf-8') as file: json.load(file)]. *)
Definition open_and_load (fs : gmap string file) (file_path : string)
  : res json :=
  match fs !! file_path with
  | Some f => json_load f
  | None => Raise FileNotFoundError
  end.

(** [load_json_file] (lines 282-313): the lines printed and the result.
    [latin1] is what [json.load] makes of the file read as latin-1, which the
    function tries when the UTF-8 reading does not decode. *)
Definition load_json_file (fs : gmap string file) (file_path : string)
  (latin1 : res json) : list loader_line * res json :=
  match open_and_load fs file_path with
  | Ok data => return_if_list data
  | Raise FileNotFoundError => ([LineNotFound file_path], Ok JNull)
  | Raise JSONDecodeError => ([LineNotJson file_path], Ok JNull)
  | Raise UnicodeDecodeError =>
      match latin1 with
      | Ok data =>
          let r := return_if_list data in
          (LineUtf8Error :: LineLatin1Loaded :: fst r, snd r)
      | Raise UnicodeDecodeError =>
          ([LineUtf8Error; LineLatin1Error; LineCheckEncoding], Ok JNull)
      | Raise e3 => ([LineUtf8Error; LineUnexpectedLatin1 e3], Ok JNull)
      end
  | Raise e => ([LineUnexpected e], Ok JNull)
  end.

(** ** More sample data *)

Module Scenario.

(** A page whose second edge is not an object. *)
Definition broken_page : json :=
  Sample.page [Sample.edge 1; JStr "oops"] true (JStr "c1").

(** A remote that always has one more page. *)
Definition endless_page : json :=
  Sample.page [Sample.edge 7] true (JStr "next").

Definition endless : nat -> request -> http_outcome :=
  Sample.always (Sample.ok endless_page).

(** A disk with ten posts and the matching state. *)
Definition ten : list json := map Sample.post (map Z.of_nat (seq 0 10)).

Definition ten_saved : world :=
  Sample.disk
    (<[Sample.output_file := Document (JArr ten)]>
       (<[Sample.resume_file := Document (state_dict (JStr "c9") (JInt 10))]>
          (<["notes.txt" := Malformed]> ∅))).

Definition ten_loaded : locals := Locals (JArr ten) (JStr "c9") (JInt 10).

(** The code point U+D83D on its own, the first half of an emoji: what the
    JSON escape [\ud83d] loads as. *)
Definition lone_surrogate : string :=
  String (ascii_of_nat 237) (String (ascii_of_nat 160)
    (String (ascii_of_nat 189) EmptyString)).

(** A state and a last page that hold it. *)
Definition odd_cursor : string := "abc" ++ lone_surrogate.

Definition odd_state : world :=
  Sample.disk
    (<[Sample.resume_file := Document (state_dict (JStr odd_cursor) (JInt 100))]> ∅).

Definition odd_edge : json :=
  JObj [("node", JObj [("caption", JStr lone_surrogate)])].

Definition odd_last_page : json :=
  Sample.page [odd_edge; Sample.edge 101] false JNull.

End Scenario.

(** ** Running the monad *)

Lemma bind_ok {A B} (m : M A) (k : A -> M B) w w' a :
  m w = (w', Ok a) -> bind m k w = k a w'.
Proof. intros H. unfold bind. now rewrite H. Qed.

Lemma path_exists_some path w f :
  files w !! path = Some f -> path_exists path w = (w, Ok true).
Proof.
  intros H. unfold path_exists. rewrite H.
  rewrite bool_decide_eq_true_2; eauto.
Qed.

Lemma path_exists_none path w :
  files w !! path = None -> path_exists path w = (w, Ok false).
Proof.
  intros H. unfold path_exists. rewrite H.
  rewrite bool_decide_eq_false_2; [done|]. intros [x Hx]. discriminate.
Qed.

Lemma read_json_some path w f :
  files w !! path = Some f -> read_json path w = (w, json_load f).
Proof. intros H. unfold read_json. now rewrite H. Qed.

(** What the two loaders return, by the content of the file. *)

Lemma load_existing_posts_absent path w :
  files w !! path = None -> load_existing_posts path w = (w, Ok (JArr [])).
Proof.
  intros H. unfold load_existing_posts.
  now rewrite (bind_ok _ _ _ _ _ (path_exists_none _ _ H)).
Qed.

Lemma load_existing_posts_present path w f :
  files w !! path = Some f ->
  load_existing_posts path w =
    (w, match f with
        | Document v => Ok v
        | Undecodable => Raise UnicodeDecodeError
        | _ => Ok (JArr [])
        end).
Proof.
  intros H. unfold load_existing_posts.
  rewrite (bind_ok _ _ _ _ _ (path_exists_some _ _ _ H)).
  unfold try_except. rewrite (read_json_some _ _ _ H).
  destruct f; reflexivity.
Qed.

Lemma load_resume_state_absent path w :
  files w !! path = None -> load_resume_state path w = (w, Ok (JNull, JInt 0)).
Proof.
  intros H. unfold load_resume_state.
  now rewrite (bind_ok _ _ _ _ _ (path_exists_none _ _ H)).
Qed.

Lemma load_resume_state_present path w f :
  files w !! path = Some f ->
  load_resume_state path w =
    (w, let+ state := json_load f in
        let+ cursor := dict_get state "after_cursor" JNull in
        let+ count := dict_get state "post_count" (JInt 0) in
        Ok (cursor, count)).
Proof.
  intros H. unfold load_resume_state.
  rewrite (bind_ok _ _ _ _ _ (path_exists_some _ _ _ H)).
  unfold bind at 1. rewrite (read_json_some _ _ _ H).
  destruct (json_load f) as [state|e]; [|reflexivity].
  unfold bind, lift, ret; simpl.
  destruct (dict_get state "after_cursor" JNull); [|reflexivity]; simpl.
  destruct (dict_get state "post_count" (JInt 0)); reflexivity.
Qed.

(** ** The fetcher *)

Lemma fetch_instagram_posts_eq remote username cursor batch w :
  fetch_instagram_posts remote username cursor batch w =
    let req := build_request username cursor batch in
    let sent := trace w ++ [HttpGet req] in
    match remote (requests w) req with
    | ConnectionFailed =>
        (World (files w) (S (requests w)) sent, Raise RequestException)
    | Answered r =>
        if (status_code r =? 200)%Z then
          (World (files w) (S (requests w)) sent, response_json r)
        else
          (World (files w) (S (requests w))
                 (sent ++ [Print (MsgFailed (status_code r))]), Ok JNull)
    end.
Proof.
  unfold fetch_instagram_posts, requests_get, bind; simpl.
  destruct (remote (requests w) _) as [|r]; [reflexivity|].
  destruct (status_code r =? 200)%Z; reflexivity.
Qed.

(** ** The [for] loop over the edges of a page *)

Lemma for_edge_in_list items : forall l c a' c',
  for_edge_in items (JArr l) c = Ok (a', c') ->
  exists nodes,
    a' = JArr (l ++ nodes) /\ Forall2 (fun e n => node_of e = Ok n) items nodes.
Proof.
  induction items as [|edge rest IH]; intros l c a' c' H; simpl in H.
  - inversion H; subst. exists []. rewrite app_nil_r. split; [done|constructor].
  - destruct (dict_get edge "node" (JObj [])) as [node|] eqn:Hn; [|discriminate].
    simpl in H. destruct (add_one c) as [c1|]; [|discriminate]. simpl in H.
    destruct (IH _ _ _ _ H) as (nodes & -> & HF).
    exists (node :: nodes). rewrite <- app_assoc. split; [done|].
    constructor; [exact Hn|exact HF].
Qed.

Lemma for_edge_in_needs_list edge rest a c r :
  for_edge_in (edge :: rest) a c = Ok r -> exists l, a = JArr l.
Proof.
  simpl. destruct (dict_get edge "node" (JObj [])); [|discriminate]. simpl.
  destruct a; try discriminate. eauto.
Qed.

Lemma for_edge_in_count items : forall a n a' c',
  for_edge_in items a (JInt n) = Ok (a', c') ->
  c' = JInt (n + Z.of_nat (List.length items)).
Proof.
  induction items as [|edge rest IH]; intros a n a' c' H; simpl in H.
  - inversion H; subst. f_equal. simpl. lia.
  - destruct (dict_get edge "node" (JObj [])); [|discriminate]. simpl in H.
    destruct (list_append a a0); [|discriminate]. simpl in H.
    rewrite (IH _ _ _ _ H). f_equal. simpl List.length. lia.
Qed.

(** A truthy value that can be iterated has a first item. *)
Lemma py_iter_truthy edges items :
  truthy edges = true -> py_iter edges = Ok items -> items <> [].
Proof.
  destruct edges as [| | | |s|l|d]; simpl; try discriminate;
    intros Ht Hi; inversion Hi; subst.
  - destruct s; [discriminate|]. simpl. discriminate.
  - destruct items; [discriminate|]. discriminate.
  - destruct d; [discriminate|]. simpl. discriminate.
Qed.

(** Stepping through a sequence of statements. *)

Lemma bind_lift {A B} (r : res A) (k : A -> M B) w :
  bind (lift r) k w = match r with Ok a => k a w | Raise e => (w, Raise e) end.
Proof. unfold bind, lift. destruct r; reflexivity. Qed.

Lemma bind_print {B} (m : message) (k : unit -> M B) w :
  bind (print m) k w =
    k tt (World (files w) (requests w) (trace w ++ [Print m])).
Proof. reflexivity. Qed.

Lemma bind_write_json {B} path v (k : unit -> M B) w :
  bind (write_json path v) k w =
    if encodable v then
      k tt (World (<[path := Document v]> (files w)) (requests w)
                  (trace w ++ [WriteFile path v]))
    else
      (World (<[path := truncated v]> (files w)) (requests w)
             (trace w ++ [WriteFailed path]), Raise UnicodeEncodeError).
Proof. unfold bind, write_json. destruct (encodable v); reflexivity. Qed.

Lemma bind_save_resume_state {B} path c n (k : unit -> M B) w :
  bind (save_resume_state path c n) k w =
    if encodable (state_dict c n) then
      k tt (World (<[path := Document (state_dict c n)]> (files w))
                  (requests w)
                  (trace w ++ [WriteFile path (state_dict c n)]))
    else
      (World (<[path := truncated (state_dict c n)]> (files w)) (requests w)
             (trace w ++ [WriteFailed path]), Raise UnicodeEncodeError).
Proof. unfold save_resume_state. apply bind_write_json. Qed.

(** The ways the body can go once the fetch has answered: it stops or raises
    before anything is written; or the page is appended, and then the write
    of the collection fails; or the collection is written, and then the body
    stops or raises with no other write, or the write of the state fails, or
    the state is written and the loop goes on. *)
Lemma process_page_cases out rsm response st w :
  (exists evs r,
      process_page out rsm response st w =
        (World (files w) (requests w) (trace w ++ evs), r) /\
      Forall (fun e => is_write e = false) evs /\
      forall st', r <> Ok (Continue st'))
  \/
  (exists edges items l nodes count',
      truthy response = true /\
      get_edges response = Ok edges /\ truthy edges = true /\
      py_iter edges = Ok items /\ items <> [] /\
      all_posts st = JArr l /\
      for_edge_in items (JArr l) (downloaded_count st)
        = Ok (JArr (l ++ nodes), count') /\
      Forall2 (fun e n => node_of e = Ok n) items nodes /\
      let posts := JArr (l ++ nodes) in
      let saved := [WriteFile out posts;
                    Print (MsgSaved (Z.of_nat (List.length (l ++ nodes))) out)] in
      let fs1 := <[out := Document posts]> (files w) in
      ((encodable posts = false /\
        process_page out rsm response st w =
          (World (<[out := truncated posts]> (files w)) (requests w)
                 (trace w ++ [WriteFailed out]), Raise UnicodeEncodeError))
       \/
       (encodable posts = true /\
        exists evs r,
           process_page out rsm response st w =
             (World fs1 (requests w) (trace w ++ saved ++ evs), r) /\
           Forall (fun e => is_write e = false) evs /\
           forall st', r <> Ok (Continue st'))
       \/
       (encodable posts = true /\
        exists page_info more cursor,
           get_page_info response = Ok page_info /\
           dict_get page_info "has_next_page" JNull = Ok more /\
           truthy more = true /\
           dict_get page_info "end_cursor" JNull = Ok cursor /\
           encodable (state_dict cursor count') = false /\
           process_page out rsm response st w =
             (World (<[rsm := truncated (state_dict cursor count')]> fs1)
                    (requests w)
                    (trace w ++ saved ++ [WriteFailed rsm]),
              Raise UnicodeEncodeError))
       \/
       (encodable posts = true /\
        exists page_info more cursor,
           get_page_info response = Ok page_info /\
           dict_get page_info "has_next_page" JNull = Ok more /\
           truthy more = true /\
           dict_get page_info "end_cursor" JNull = Ok cursor /\
           encodable (state_dict cursor count') = true /\
           process_page out rsm response st w =
             (World (<[rsm := Document (state_dict cursor count')]> fs1)
                    (requests w)
                    (trace w ++ saved ++ [WriteFile rsm (state_dict cursor count')]),
              Ok (Continue (Locals posts cursor count')))))).
Proof.
  assert (Hraise : forall (e : exn) evs0 fs0,
    exists evs (r : res control),
      (World fs0 (requests w) (trace w ++ evs0), @Raise control e)
        = (World fs0 (requests w) (trace w ++ evs0 ++ evs), r) /\
      Forall (fun e => is_write e = false) evs /\
      forall st', r <> Ok (Continue st')).
  { intros e evs0 fs0. exists [], (Raise e). rewrite app_nil_r.
    split; [reflexivity|]. split; [constructor|discriminate]. }
  assert (Hbreak : forall m evs0 fs0,
    exists evs (r : res control),
      (World fs0 (requests w) ((trace w ++ evs0) ++ [Print m]), Ok Break)
        = (World fs0 (requests w) (trace w ++ evs0 ++ evs), r) /\
      Forall (fun e => is_write e = false) evs /\
      forall st', r <> Ok (Continue st')).
  { intros m evs0 fs0. exists [Print m], (Ok Break). rewrite app_assoc.
    split; [reflexivity|]. split; [repeat constructor|discriminate]. }
  unfold process_page.
  destruct (truthy response) eqn:Hresp; cbn [negb].
  2:{ left. rewrite bind_print. unfold ret.
      destruct (Hbreak MsgNoResponse [] (files w)) as (evs & r & Heq & H).
      rewrite !app_nil_r in Heq. rewrite app_nil_l in Heq. eauto. }
  rewrite bind_lift.
  destruct (get_edges response) as [edges|e] eqn:Hedges.
  2:{ left. destruct (Hraise e [] (files w)) as (evs & r & Heq & H).
      rewrite app_nil_r, app_nil_l in Heq. destruct w. eauto. }
  destruct (truthy edges) eqn:Htr; cbn [negb].
  2:{ left. rewrite bind_print. unfold ret.
      destruct (Hbreak MsgNoMorePosts [] (files w)) as (evs & r & Heq & H).
      rewrite !app_nil_r in Heq. rewrite app_nil_l in Heq. eauto. }
  rewrite bind_lift.
  destruct (py_iter edges) as [items|e] eqn:Hiter.
  2:{ left. destruct (Hraise e [] (files w)) as (evs & r & Heq & H).
      rewrite app_nil_r, app_nil_l in Heq. destruct w. eauto. }
  pose proof (py_iter_truthy _ _ Htr Hiter) as Hne.
  rewrite bind_lift.
  destruct (for_edge_in items (all_posts st) (downloaded_count st))
    as [[posts count']|e] eqn:Hfor.
  2:{ left. destruct (Hraise e [] (files w)) as (evs & r & Heq & H).
      rewrite app_nil_r, app_nil_l in Heq. destruct w. eauto. }
  destruct items as [|edge rest]; [done|].
  destruct (for_edge_in_needs_list _ _ _ _ _ Hfor) as [l Hl].
  rewrite Hl in Hfor.
  destruct (for_edge_in_list _ _ _ _ _ Hfor) as (nodes & -> & HF).
  right. exists edges, (edge :: rest), l, nodes, count'.
  repeat (split; [done|]).
  cbv zeta. cbn [fst snd].
  rewrite bind_write_json.
  destruct (encodable (JArr (l ++ nodes))) eqn:Henc; [|left; done].
  right.
  rewrite bind_lift. cbn [py_len].
  rewrite bind_print. cbn [files requests trace].
  rewrite <- app_assoc. cbn [app].
  rewrite bind_lift.
  destruct (get_page_info response) as [page_info|e] eqn:Hpi;
    [|left; split; [done|apply Hraise]].
  rewrite bind_lift.
  destruct (dict_get page_info "has_next_page" JNull) as [more|e] eqn:Hmore;
    [|left; split; [done|apply Hraise]].
  destruct (truthy more) eqn:Htm.
  - rewrite bind_lift.
    destruct (dict_get page_info "end_cursor" JNull) as [cursor|e] eqn:Hc;
      [|left; split; [done|apply Hraise]].
    right. rewrite bind_save_resume_state.
    destruct (encodable (state_dict cursor count')) eqn:Hse.
    + right. split; [done|]. exists page_info, more, cursor.
      repeat (split; [done|]).
      unfold ret. cbn [files requests trace].
      rewrite <- app_assoc. reflexivity.
    + left. split; [done|]. exists page_info, more, cursor.
      repeat (split; [done|]).
      cbn [files requests trace]. rewrite <- app_assoc. reflexivity.
  - left. split; [done|]. rewrite bind_print. unfold ret.
    cbn [files requests trace]. apply Hbreak.
Qed.

(** What can be encoded. *)

Lemma encodable_state_dict cursor count :
  encodable (state_dict cursor count) = encodable cursor && encodable count.
Proof.
  unfold state_dict. cbn. now rewrite !andb_true_r.
Qed.

Lemma encodable_app l1 l2 :
  encodable (JArr (l1 ++ l2)) = encodable (JArr l1) && encodable (JArr l2).
Proof. cbn [encodable]. apply forallb_app. Qed.

(** ** One iteration *)

Lemma iteration_eq remote u out rsm b st w :
  iteration remote u out rsm b st w =
    match fetch_instagram_posts remote u (after_cursor st) b
            (World (files w) (requests w)
                   (trace w ++ [Print (MsgFetching b (downloaded_count st))]))
    with
    | (w1, Ok response) => process_page out rsm response st w1
    | (w1, Raise e) => (w1, Raise e)
    end.
Proof. reflexivity. Qed.

Lemma written_counts_app rsm evs1 evs2 :
  written_counts rsm (evs1 ++ evs2)
    = written_counts rsm evs1 ++ written_counts rsm evs2.
Proof. apply omap_app. Qed.

Lemma written_counts_cons rsm e evs :
  written_counts rsm (e :: evs) =
    match state_write rsm e with
    | Some n => n :: written_counts rsm evs
    | None => written_counts rsm evs
    end.
Proof. reflexivity. Qed.

Lemma written_counts_no_write rsm evs :
  Forall (fun e => is_write e = false) evs -> written_counts rsm evs = [].
Proof.
  induction 1 as [|e evs He _ IH]; [reflexivity|].
  rewrite written_counts_cons, IH.
  destruct e; try reflexivity. discriminate.
Qed.

Lemma written_counts_posts rsm out l evs :
  written_counts rsm (WriteFile out (JArr l) :: evs) = written_counts rsm evs.
Proof. reflexivity. Qed.

Lemma written_counts_state rsm c n :
  written_counts rsm [WriteFile rsm (state_dict c n)] = [n].
Proof.
  rewrite written_counts_cons. unfold state_write, state_dict.
  now rewrite String.eqb_refl.
Qed.

(** What an iteration adds to the trace, and the state writes in it: one,
    storing the new count, when the loop goes on; none otherwise. *)
Lemma iteration_trace remote u out rsm b st w :
  exists evs fs' r,
    iteration remote u out rsm b st w =
      (World fs' (S (requests w)) (trace w ++ evs), r) /\
    written_counts rsm evs =
      match r with
      | Ok (Continue st') => [downloaded_count st']
      | _ => []
      end.
Proof.
  rewrite iteration_eq, fetch_instagram_posts_eq. cbv zeta.
  cbn [files requests trace].
  set (req := build_request u (after_cursor st) b).
  set (line := Print (MsgFetching b (downloaded_count st))).
  assert (Hpage : forall response pre,
    written_counts rsm pre = [] ->
    exists evs fs' r,
      process_page out rsm response st
        (World (files w) (S (requests w)) (trace w ++ pre)) =
        (World fs' (S (requests w)) (trace w ++ evs), r) /\
      written_counts rsm evs =
        match r with
        | Ok (Continue st') => [downloaded_count st']
        | _ => []
        end).
  { intros response pre Hpre.
    destruct (process_page_cases out rsm response st
                (World (files w) (S (requests w)) (trace w ++ pre)))
      as [(evs & r & Heq & Hnw & Hr)
         |(edges & items & l & nodes & count' & _ & _ & _ & _ & _ & _ & _ & _
           & [(_ & Heq)
             |[(_ & evs & r & Heq & Hnw & Hr)
              |[(_ & pi & more & cursor & _ & _ & _ & _ & _ & Heq)
               |(_ & pi & more & cursor & _ & _ & _ & _ & _ & Heq)]]])];
      cbn [files requests trace] in Heq; rewrite Heq, <- app_assoc;
      do 3 eexists; (split; [reflexivity|]).
    - rewrite written_counts_app, Hpre, (written_counts_no_write _ _ Hnw).
      destruct r as [[st'|]|]; [destruct (Hr st' eq_refl)|done|done].
    - rewrite written_counts_app, Hpre. reflexivity.
    - rewrite written_counts_app, Hpre. cbn [app].
      rewrite written_counts_posts.
      change (Print ?m :: ?x) with ([Print m] ++ x).
      rewrite written_counts_app, (written_counts_no_write _ _ Hnw).
      destruct r as [[st'|]|]; [destruct (Hr st' eq_refl)|done|done].
    - rewrite written_counts_app, Hpre. reflexivity.
    - rewrite written_counts_app, Hpre. cbn [app].
      rewrite written_counts_posts.
      change (Print ?m :: ?x) with ([Print m] ++ x).
      rewrite written_counts_app, written_counts_state. reflexivity. }
  destruct (remote (requests w) req) as [|r].
  - do 3 eexists. rewrite <- app_assoc. split; [reflexivity|]. reflexivity.
  - destruct (status_code r =? 200)%Z.
    + unfold response_json. destruct (payload r) as [v|].
      * rewrite <- app_assoc. apply Hpage. reflexivity.
      * do 3 eexists. rewrite <- app_assoc. split; reflexivity.
    + rewrite <- !app_assoc. apply Hpage. reflexivity.
Qed.

(** When the loop goes on, the page was appended and both files hold the new
    local variables. *)
Lemma process_page_continue out rsm response st w w' st' :
  process_page out rsm response st w = (w', Ok (Continue st')) ->
  exists items l nodes,
    items <> [] /\
    all_posts st = JArr l /\ all_posts st' = JArr (l ++ nodes) /\
    for_edge_in items (JArr l) (downloaded_count st)
      = Ok (JArr (l ++ nodes), downloaded_count st') /\
    files w' =
      <[rsm := Document (state_dict (after_cursor st') (downloaded_count st'))]>
        (<[out := Document (all_posts st')]> (files w)).
Proof.
  intros H.
  destruct (process_page_cases out rsm response st w)
    as [(evs & r & Heq & _ & Hr)
       |(edges & items & l & nodes & count' & _ & _ & _ & _ & Hne & Hl & Hfor & _
         & [(_ & Heq)
           |[(_ & evs & r & Heq & _ & Hr)
            |[(_ & pi & more & cursor & _ & _ & _ & _ & _ & Heq)
             |(_ & pi & more & cursor & _ & _ & _ & _ & _ & Heq)]]])];
    rewrite Heq in H; inversion H; subst.
  - destruct (Hr st'). congruence.
  - destruct (Hr st'). congruence.
  - exists items, l, nodes. auto.
Qed.

Lemma iteration_continue remote u out rsm b st w w' st' :
  iteration remote u out rsm b st w = (w', Ok (Continue st')) ->
  exists items l nodes,
    items <> [] /\
    all_posts st = JArr l /\ all_posts st' = JArr (l ++ nodes) /\
    for_edge_in items (JArr l) (downloaded_count st)
      = Ok (JArr (l ++ nodes), downloaded_count st') /\
    files w' =
      <[rsm := Document (state_dict (after_cursor st') (downloaded_count st'))]>
        (<[out := Document (all_posts st')]> (files w)).
Proof.
  rewrite iteration_eq, fetch_instagram_posts_eq. cbv zeta.
  destruct (remote _ _) as [|r]; [discriminate|].
  destruct (status_code r =? 200)%Z.
  - destruct (response_json r); [|discriminate].
    intros H. apply process_page_continue in H. exact H.
  - intros H. apply process_page_continue in H. exact H.
Qed.

Lemma iteration_count remote u out rsm b st w w' st' n :
  iteration remote u out rsm b st w = (w', Ok (Continue st')) ->
  downloaded_count st = JInt n ->
  exists n', downloaded_count st' = JInt n' /\ (n < n')%Z.
Proof.
  intros H Hn. apply iteration_continue in H.
  destruct H as (items & l & nodes & Hne & _ & _ & Hfor & _).
  rewrite Hn in Hfor. apply for_edge_in_count in Hfor.
  eexists. split; [exact Hfor|].
  destruct items; [done|]. simpl List.length. lia.
Qed.

Lemma iteration_persisted remote u out rsm b st w w' st' :
  out <> rsm ->
  iteration remote u out rsm b st w = (w', Ok (Continue st')) ->
  load_existing_posts out w' = (w', Ok (all_posts st')) /\
  load_resume_state rsm w' = (w', Ok (after_cursor st', downloaded_count st')).
Proof.
  intros Hne H. apply iteration_continue in H.
  destruct H as (_ & _ & _ & _ & _ & _ & _ & Hfiles).
  split.
  - rewrite (load_existing_posts_present out w' (Document (all_posts st')));
      [reflexivity|].
    rewrite Hfiles, lookup_insert_ne, lookup_insert_eq; done.
  - rewrite (load_resume_state_present rsm w'
               (Document (state_dict (after_cursor st') (downloaded_count st'))));
      [reflexivity|].
    rewrite Hfiles, lookup_insert_eq; done.
Qed.

(** ** The loop *)

Lemma loop_S remote fuel u out rsm b st w :
  loop remote (S fuel) u out rsm b st w =
    match iteration remote u out rsm b st w with
    | (w', Ok (Continue st')) => loop remote fuel u out rsm b st' w'
    | (w', Ok Break) => (w', Ok Returned)
    | (w', Raise e) => (w', Raise e)
    end.
Proof.
  simpl. unfold bind.
  destruct (iteration remote u out rsm b st w) as [w' [[st'|]|e]]; reflexivity.
Qed.

(** A run that is still going after [N] iterations continues as the loop
    started from where it stands. *)
Lemma loop_split remote u out rsm b N : forall fuel st w wN stN,
  loop remote N u out rsm b st w = (wN, Ok (Running stN)) ->
  loop remote (N + fuel) u out rsm b st w = loop remote fuel u out rsm b stN wN.
Proof.
  induction N as [|N IH]; intros fuel st w wN stN H.
  - simpl in H. unfold ret in H. inversion H; subst. reflexivity.
  - rewrite Nat.add_succ_l, loop_S. rewrite loop_S in H.
    destruct (iteration remote u out rsm b st w) as [w' [[st'|]|e]];
      try discriminate.
    now apply IH.
Qed.

(** The state writes of a run store strictly increasing counts, all above the
    count the run started from. *)
Lemma loop_counts remote u out rsm b fuel : forall st w n,
  downloaded_count st = JInt n ->
  exists evs counts,
    trace (fst (loop remote fuel u out rsm b st w)) = trace w ++ evs /\
    written_counts rsm evs = map JInt counts /\
    Forall (fun c => (n < c)%Z) counts /\
    StronglySorted Z.lt counts.
Proof.
  induction fuel as [|fuel IH]; intros st w n Hn.
  - exists [], []. simpl. rewrite app_nil_r.
    repeat split; constructor.
  - rewrite loop_S.
    destruct (iteration_trace remote u out rsm b st w)
      as (evs & fs' & r & Heq & Hw).
    rewrite Heq. destruct r as [[st'|]|e].
    + destruct (iteration_count _ _ _ _ _ _ _ _ _ _ Heq Hn) as (n' & Hn' & Hlt).
      destruct (IH st' (World fs' (S (requests w)) (trace w ++ evs)) n' Hn')
        as (evs' & counts & Ht & Hc & Hall & Hsorted).
      exists (evs ++ evs'), (n' :: counts).
      rewrite Ht. cbn [trace]. rewrite app_assoc.
      split; [reflexivity|]. split; [|split].
      * rewrite written_counts_app, Hw, Hc, Hn'. reflexivity.
      * constructor; [exact Hlt|].
        eapply Forall_impl; [exact Hall|]. simpl. intros; lia.
      * constructor; assumption.
    + exists evs, []. cbn [fst trace]. repeat split; try constructor. exact Hw.
    + exists evs, []. cbn [fst trace]. repeat split; try constructor. exact Hw.
Qed.

(** ** Uniform statements *)

Lemma uniform_ret {A} (a : A) : uniform (ret a).
Proof.
  intros [fs n tr]. unfold ret, bare; simpl.
  now rewrite Nat.add_0_r, app_nil_r.
Qed.

Lemma uniform_lift {A} (r : res A) : uniform (lift r).
Proof.
  intros [fs n tr]. unfold lift, bare; simpl.
  now rewrite Nat.add_0_r, app_nil_r.
Qed.

Lemma uniform_emit e : uniform (emit e).
Proof.
  intros [fs n tr]. unfold emit, bare; simpl. now rewrite Nat.add_0_r.
Qed.

Lemma uniform_write_json path v : uniform (write_json path v).
Proof.
  intros [fs n tr]. unfold write_json, bare; simpl.
  destruct (encodable v); simpl; now rewrite Nat.add_0_r.
Qed.

Lemma uniform_path_exists path : uniform (path_exists path).
Proof.
  intros [fs n tr]. unfold path_exists, bare; simpl.
  now rewrite Nat.add_0_r, app_nil_r.
Qed.

Lemma uniform_read_json path : uniform (read_json path).
Proof.
  intros [fs n tr]. unfold read_json, bare; simpl.
  destruct (fs !! path); simpl; now rewrite Nat.add_0_r, app_nil_r.
Qed.

Lemma uniform_bind {A B} (m : M A) (k : A -> M B) :
  uniform m -> (forall a, uniform (k a)) -> uniform (bind m k).
Proof.
  intros Hm Hk w. unfold bind at 1. rewrite (Hm w).
  unfold bind. destruct (m (bare w)) as [[fs1 n1 tr1] [a|e]]; simpl.
  - rewrite (Hk a (World fs1 (requests w + n1) (trace w ++ tr1))).
    rewrite (Hk a (World fs1 n1 tr1)). unfold bare; simpl.
    destruct (k a (World fs1 0 [])) as [[fs2 n2 tr2] r]; simpl.
    now rewrite Nat.add_assoc, app_assoc.
  - reflexivity.
Qed.

Lemma uniform_try_except {A} (m h : M A) e :
  uniform m -> uniform h -> uniform (try_except m e h).
Proof.
  intros Hm Hh w. unfold try_except at 1. rewrite (Hm w).
  unfold try_except. destruct (m (bare w)) as [[fs1 n1 tr1] [a|e']]; simpl.
  - reflexivity.
  - destruct (decide (e' = e)); [|reflexivity].
    rewrite (Hh (World fs1 (requests w + n1) (trace w ++ tr1))).
    rewrite (Hh (World fs1 n1 tr1)). unfold bare; simpl.
    destruct (h (World fs1 0 [])) as [[fs2 n2 tr2] r]; simpl.
    now rewrite Nat.add_assoc, app_assoc.
Qed.

Lemma uniform_if {A} (c : bool) (m1 m2 : M A) :
  uniform m1 -> uniform m2 -> uniform (if c then m1 else m2).
Proof. destruct c; auto. Qed.

Lemma uniform_requests_get remote req :
  stable remote -> uniform (requests_get remote req).
Proof.
  intros Hs [fs n tr]. unfold requests_get, bare; simpl.
  rewrite (Hs n 0%nat req).
  destruct (remote 0%nat req); simpl; now rewrite Nat.add_1_r.
Qed.

Create HintDb uniform.
#[local] Hint Resolve uniform_ret uniform_lift uniform_emit uniform_write_json
  uniform_path_exists uniform_read_json uniform_try_except uniform_if
  uniform_requests_get : uniform.

Ltac uniform_steps :=
  repeat first
    [ apply uniform_bind; [|intros ?]
    | apply uniform_if
    | apply uniform_try_except
    | solve [auto with uniform] ].

Lemma uniform_load_existing_posts path : uniform (load_existing_posts path).
Proof. unfold load_existing_posts. uniform_steps. Qed.

Lemma uniform_load_resume_state path : uniform (load_resume_state path).
Proof. unfold load_resume_state. uniform_steps. Qed.

Lemma uniform_iteration remote u out rsm b st :
  stable remote -> uniform (iteration remote u out rsm b st).
Proof.
  intros Hs. unfold iteration, fetch_instagram_posts, process_page,
    save_resume_state, print.
  uniform_steps.
Qed.

Lemma uniform_loop remote u out rsm b fuel : forall st,
  stable remote -> uniform (loop remote fuel u out rsm b st).
Proof.
  induction fuel as [|fuel IH]; intros st Hs; simpl.
  - apply uniform_ret.
  - apply uniform_bind; [now apply uniform_iteration|].
    intros [st'|]; [now apply IH|apply uniform_ret].
Qed.

(** Two worlds with the same files: a uniform statement leaves the same files
    and returns the same. *)
Lemma uniform_same_files {A} (m : M A) w1 w2 :
  uniform m -> files w1 = files w2 ->
  files (fst (m w1)) = files (fst (m w2)) /\ snd (m w1) = snd (m w2).
Proof.
  intros Hm Hf. rewrite (Hm w1), (Hm w2). unfold bare. rewrite Hf. auto.
Qed.

(** The loaders leave the world as it is. *)
Lemma load_existing_posts_world path w : fst (load_existing_posts path w) = w.
Proof.
  destruct (files w !! path) as [f|] eqn:H.
  - now rewrite (load_existing_posts_present _ _ _ H).
  - now rewrite (load_existing_posts_absent _ _ H).
Qed.

Lemma load_resume_state_world path w : fst (load_resume_state path w) = w.
Proof.
  destruct (files w !! path) as [f|] eqn:H.
  - now rewrite (load_resume_state_present _ _ _ H).
  - now rewrite (load_resume_state_absent _ _ H).
Qed.

Lemma iterate_and_save_posts_eq remote fuel u out rsm b w :
  iterate_and_save_posts remote fuel u out rsm b w =
    match snd (load_existing_posts out w) with
    | Ok posts =>
        match snd (load_resume_state rsm w) with
        | Ok state =>
            loop remote fuel u out rsm b (Locals posts (fst state) (snd state)) w
        | Raise e => (w, Raise e)
        end
    | Raise e => (w, Raise e)
    end.
Proof.
  unfold iterate_and_save_posts, bind.
  pose proof (load_existing_posts_world out w) as H1.
  destruct (load_existing_posts out w) as [w1 [posts|e]]; simpl in *; subst;
    [|reflexivity].
  pose proof (load_resume_state_world rsm w) as H2.
  destruct (load_resume_state rsm w) as [w2 [state|e]]; simpl in *; subst;
    reflexivity.
Qed.

(** ** The branches of the loop body *)

Lemma process_page_falsy out rsm response st w :
  truthy response = false ->
  process_page out rsm response st w =
    (World (files w) (requests w) (trace w ++ [Print MsgNoResponse]), Ok Break).
Proof. intros H. unfold process_page. rewrite H. reflexivity. Qed.

Lemma process_page_no_edges out rsm response edges st w :
  truthy response = true ->
  get_edges response = Ok edges -> truthy edges = false ->
  process_page out rsm response st w =
    (World (files w) (requests w) (trace w ++ [Print MsgNoMorePosts]), Ok Break).
Proof.
  intros H1 H2 H3. unfold process_page. rewrite H1. cbn [negb].
  rewrite bind_lift, H2, H3. reflexivity.
Qed.

Lemma process_page_last out rsm response edges items posts count' pi more st w :
  truthy response = true ->
  get_edges response = Ok edges -> truthy edges = true ->
  py_iter edges = Ok items ->
  for_edge_in items (all_posts st) (downloaded_count st)
    = Ok (JArr posts, count') ->
  encodable (JArr posts) = true ->
  get_page_info response = Ok pi ->
  dict_get pi "has_next_page" JNull = Ok more -> truthy more = false ->
  process_page out rsm response st w =
    (World (<[out := Document (JArr posts)]> (files w)) (requests w)
           (trace w ++ [WriteFile out (JArr posts);
                        Print (MsgSaved (Z.of_nat (List.length posts)) out);
                        Print MsgEndOfPages]),
     Ok Break).
Proof.
  intros H1 H2 H3 H4 H5 Henc H6 H7 H8. unfold process_page.
  rewrite H1. cbn [negb]. rewrite bind_lift, H2, H3. cbn [negb].
  rewrite bind_lift, H4, bind_lift, H5. cbv zeta. cbn [fst snd].
  rewrite bind_write_json, Henc, bind_lift. cbn [py_len].
  rewrite bind_print, bind_lift, H6, bind_lift, H7, H8, bind_print.
  unfold ret. cbn [files requests trace]. rewrite <- !app_assoc. reflexivity.
Qed.

(** A response with edges is not falsy. *)
Lemma get_edges_truthy response edges :
  get_edges response = Ok edges -> truthy edges = true ->
  truthy response = true.
Proof.
  destruct response as [| | | | | |d]; try discriminate.
  destruct d; [|reflexivity]. simpl. intros H. inversion H; subst. discriminate.
Qed.

(** The loop after a fetch that failed with a status. *)
Lemma loop_failed_status remote fuel u out rsm b st w r :
  remote (requests w) (build_request u (after_cursor st) b) = Answered r ->
  status_code r <> 200%Z ->
  loop remote (S fuel) u out rsm b st w
    = (World (files w) (S (requests w))
             (trace w ++ [Print (MsgFetching b (downloaded_count st));
                          HttpGet (build_request u (after_cursor st) b);
                          Print (MsgFailed (status_code r));
                          Print MsgNoResponse]),
       Ok Returned).
Proof.
  intros Hr Hs. apply Z.eqb_neq in Hs.
  rewrite loop_S, iteration_eq, fetch_instagram_posts_eq. cbv zeta.
  cbn [files requests trace]. rewrite Hr, Hs.
  rewrite process_page_falsy; [|reflexivity].
  cbn [files requests trace]. now rewrite <- !app_assoc.
Qed.

(** * The claims *)

(** ** The loaders *)

(** C1.  A state file that is not valid JSON does not give a fresh start:
    [load_resume_state] has no handler for the decoding error, which it
    raises, whatever else the disk holds. *)
Theorem load_resume_state_malformed_raises path fs n tr :
  let w := World (<[path := Malformed]> fs) n tr in
  load_resume_state path w = (w, Raise JSONDecodeError).
Proof.
  intros w. apply (load_resume_state_present path w Malformed).
  apply lookup_insert_eq.
Qed.

(** The run stops there, before any request is made. *)
Lemma iterate_and_save_posts_malformed_state remote fuel u b :
  let w := Sample.disk (<[Sample.resume_file := Malformed]> ∅) in
  iterate_and_save_posts remote fuel u Sample.output_file Sample.resume_file b w
    = (w, Raise JSONDecodeError).
Proof. intros w. rewrite iterate_and_save_posts_eq. reflexivity. Qed.

(** C5.  A posts file that fails to load is not always taken for an empty
    collection: bytes that are not UTF-8 make [load_existing_posts] raise
    [UnicodeDecodeError], which its handler does not cover, and the run ends
    there, before any request, with the disk as it was. *)
Theorem load_existing_posts_undecodable_raises remote fuel u path rsm b fs n tr :
  let w := World (<[path := Undecodable]> fs) n tr in
  load_existing_posts path w = (w, Raise UnicodeDecodeError) /\
  iterate_and_save_posts remote fuel u path rsm b w
    = (w, Raise UnicodeDecodeError).
Proof.
  intros w.
  assert (H : load_existing_posts path w = (w, Raise UnicodeDecodeError)).
  { apply (load_existing_posts_present path w Undecodable).
    apply lookup_insert_eq. }
  split; [exact H|]. rewrite iterate_and_save_posts_eq, H. reflexivity.
Qed.

(** The files the handler does cover: a posts file that is absent, empty or
    text that is not a JSON document loads as the empty list. *)
Theorem load_existing_posts_tolerant path w :
  files w !! path = None \/ files w !! path = Some Empty
    \/ files w !! path = Some Malformed ->
  load_existing_posts path w = (w, Ok (JArr [])).
Proof.
  intros [H|[H|H]].
  - now apply load_existing_posts_absent.
  - now rewrite (load_existing_posts_present _ _ _ H).
  - now rewrite (load_existing_posts_present _ _ _ H).
Qed.

Lemma load_existing_posts_tolerant_witness :
  load_existing_posts "posts.json" Sample.fresh = (Sample.fresh, Ok (JArr []))
  /\ (let w := Sample.disk (<["posts.json" := Empty]> ∅) in
      load_existing_posts "posts.json" w = (w, Ok (JArr [])))
  /\ (let w := Sample.disk (<["posts.json" := Malformed]> ∅) in
      load_existing_posts "posts.json" w = (w, Ok (JArr []))).
Proof.
  split; [|split].
  - apply (load_existing_posts_tolerant "posts.json" Sample.fresh).
    left. reflexivity.
  - apply (load_existing_posts_tolerant "posts.json"
             (Sample.disk (<["posts.json" := Empty]> ∅))).
    right; left. reflexivity.
  - apply (load_existing_posts_tolerant "posts.json"
             (Sample.disk (<["posts.json" := Malformed]> ∅))).
    right; right. reflexivity.
Defined.

(** C10.  A posts file holding a JSON document that is not a list loads as
    that value, not as the empty list, and that value is what the loop gets
    as its collection. *)
Theorem load_existing_posts_verbatim path w v :
  files w !! path = Some (Document v) ->
  (forall l, v <> JArr l) ->
  load_existing_posts path w = (w, Ok v) /\
  v <> JArr [] /\
  forall remote u rsm b cursor count,
    load_resume_state rsm w = (w, Ok (cursor, count)) ->
    iterate_and_save_posts remote 0 u path rsm b w
      = (w, Ok (Running (Locals v cursor count))).
Proof.
  intros H Hv.
  pose proof (load_existing_posts_present _ _ _ H) as Hl. simpl in Hl.
  split; [exact Hl|]. split; [apply Hv|].
  intros remote u rsm b cursor count Hs.
  rewrite iterate_and_save_posts_eq, Hl, Hs. reflexivity.
Qed.

Lemma load_existing_posts_verbatim_witness :
  let v := JObj [("posts", JArr [])] in
  let w := Sample.disk (<[Sample.output_file := Document v]> ∅) in
  load_existing_posts Sample.output_file w = (w, Ok v) /\
  v <> JArr [] /\
  forall remote u rsm b cursor count,
    load_resume_state rsm w = (w, Ok (cursor, count)) ->
    iterate_and_save_posts remote 0 u Sample.output_file rsm b w
      = (w, Ok (Running (Locals v cursor count))).
Proof.
  intros v w.
  apply (load_existing_posts_verbatim Sample.output_file w v).
  - reflexivity.
  - intros l. discriminate.
Defined.

(** C6.  Loading a state file that holds a cursor string with no surrogate
    in it and a non-negative count, and saving what was loaded, writes a
    state file with the same cursor and the same count, which loads as
    before. *)
Theorem load_save_resume_state path w d cursor count :
  files w !! path = Some (Document (JObj d)) ->
  dict_lookup "after_cursor" d = Some (JStr cursor) ->
  dict_lookup "post_count" d = Some (JInt count) ->
  (0 <= count)%Z ->
  has_surrogate cursor = false ->
  exists w' d',
    (let* state := load_resume_state path in
     save_resume_state path (fst state) (snd state)) w = (w', Ok tt) /\
    files w' !! path = Some (Document (JObj d')) /\
    d' = [("after_cursor", JStr cursor); ("post_count", JInt count)] /\
    trace w' = trace w ++ [WriteFile path (JObj d')] /\
    dict_lookup "after_cursor" d' = Some (JStr cursor) /\
    dict_lookup "post_count" d' = Some (JInt count) /\
    load_resume_state path w = (w, Ok (JStr cursor, JInt count)) /\
    load_resume_state path w' = (w', Ok (JStr cursor, JInt count)) /\
    forall other, other <> path -> files w' !! other = files w !! other.
Proof.
  intros Hf Hc Hn _ Hsur.
  pose proof (load_resume_state_present _ _ _ Hf) as Hl.
  simpl in Hl. rewrite Hc, Hn in Hl. simpl in Hl.
  assert (Henc : encodable (state_dict (JStr cursor) (JInt count)) = true)
    by (rewrite encodable_state_dict; simpl; now rewrite Hsur).
  eexists. exists [("after_cursor", JStr cursor); ("post_count", JInt count)].
  split; [|split; [|split; [|split; [|split; [|split; [|split; [|split]]]]]]].
  - unfold bind at 1. rewrite Hl. cbn [fst snd].
    unfold save_resume_state, write_json. rewrite Henc. reflexivity.
  - cbn [files]. apply lookup_insert_eq.
  - reflexivity.
  - reflexivity.
  - reflexivity.
  - reflexivity.
  - exact Hl.
  - match goal with |- load_resume_state _ ?w' = _ =>
      rewrite (load_resume_state_present path w'
                 (Document (state_dict (JStr cursor) (JInt count))))
    end; [reflexivity|apply lookup_insert_eq].
  - intros other Ho. cbn [files]. now rewrite lookup_insert_ne.
Qed.

Lemma load_save_resume_state_witness :
  exists w' d',
    (let* state := load_resume_state Sample.resume_file in
     save_resume_state Sample.resume_file (fst state) (snd state)) Sample.resumed
      = (w', Ok tt) /\
    files w' !! Sample.resume_file = Some (Document (JObj d')) /\
    d' = [("after_cursor", JStr "abc123"); ("post_count", JInt 100)] /\
    trace w' = trace Sample.resumed ++ [WriteFile Sample.resume_file (JObj d')] /\
    dict_lookup "after_cursor" d' = Some (JStr "abc123") /\
    dict_lookup "post_count" d' = Some (JInt 100) /\
    load_resume_state Sample.resume_file Sample.resumed
      = (Sample.resumed, Ok (JStr "abc123", JInt 100)) /\
    load_resume_state Sample.resume_file w' = (w', Ok (JStr "abc123", JInt 100)) /\
    forall other, other <> Sample.resume_file ->
      files w' !! other = files Sample.resumed !! other.
Proof.
  apply (load_save_resume_state Sample.resume_file Sample.resumed
           [("after_cursor", JStr "abc123"); ("post_count", JInt 100)]
           "abc123" 100).
  - reflexivity.
  - reflexivity.
  - reflexivity.
  - lia.
  - reflexivity.
Defined.

(** A valid state file on which the save fails: the cursor holds a lone
    surrogate, as the escape [\ud83d] in the file gives.  The load works; the
    save raises, and what it leaves of the file no longer loads. *)
Lemma load_save_resume_state_counterexample :
  let path := Sample.resume_file in
  let w := Scenario.odd_state in
  let r := (let* state := load_resume_state path in
            save_resume_state path (fst state) (snd state)) w in
  files w !! path
    = Some (Document (JObj [("after_cursor", JStr Scenario.odd_cursor);
                            ("post_count", JInt 100)])) /\
  load_resume_state path w = (w, Ok (JStr Scenario.odd_cursor, JInt 100)) /\
  snd r = Raise UnicodeEncodeError /\
  files (fst r) !! path = Some Malformed /\
  load_resume_state path (fst r) = (fst r, Raise JSONDecodeError).
Proof. vm_compute. repeat split; reflexivity. Qed.

(** ** The loop, one page at a time *)

(** C4.  A response whose edge list is empty ends the loop, and nothing is
    written on that iteration: the files are those found and the trace of the
    iteration has no write. *)
Theorem empty_page_stops_without_writing remote fuel u out rsm b st w response :
  remote (requests w) (build_request u (after_cursor st) b)
    = Answered (Response 200 (Some response)) ->
  get_edges response = Ok (JArr []) ->
  exists evs,
    loop remote (S fuel) u out rsm b st w
      = (World (files w) (S (requests w)) (trace w ++ evs), Ok Returned) /\
    Forall (fun e => is_write e = false) evs.
Proof.
  intros Hr He.
  rewrite loop_S, iteration_eq, fetch_instagram_posts_eq. cbv zeta.
  cbn [files requests trace]. rewrite Hr. cbn [status_code Z.eqb Pos.eqb].
  unfold response_json. cbn [payload].
  destruct (truthy response) eqn:Ht.
  - rewrite (process_page_no_edges out rsm response (JArr [])); try done.
    cbn [files requests trace]. rewrite <- !app_assoc.
    eexists. split; [reflexivity|]. repeat constructor.
  - rewrite process_page_falsy; [|done].
    cbn [files requests trace]. rewrite <- !app_assoc.
    eexists. split; [reflexivity|]. repeat constructor.
Qed.

Lemma empty_page_stops_without_writing_witness :
  exists evs,
    loop (Sample.always (Sample.ok (Sample.page [] false JNull))) 1
         "natgeo" Sample.output_file Sample.resume_file 50
         (Locals (JArr Sample.hundred) (JStr "abc123") (JInt 100)) Sample.resumed
      = (World (files Sample.resumed) 1 (trace Sample.resumed ++ evs),
         Ok Returned) /\
    Forall (fun e => is_write e = false) evs.
Proof.
  apply (empty_page_stops_without_writing
           (Sample.always (Sample.ok (Sample.page [] false JNull))) 0
           "natgeo" Sample.output_file Sample.resume_file 50
           (Locals (JArr Sample.hundred) (JStr "abc123") (JInt 100))
           Sample.resumed (Sample.page [] false JNull)).
  - reflexivity.
  - reflexivity.
Defined.

(** C7.  On a status other than 200 the fetcher makes its one request, prints
    the failure and returns [None]; the loop then prints that no response was
    received and returns, with the files as they were.  When the request
    raises instead, the loop stops as well, after the same single request and
    with the same files; the exception leaves the function. *)
Theorem non_200_stops_the_loop remote fuel u out rsm b st w r :
  remote (requests w) (build_request u (after_cursor st) b) = Answered r ->
  status_code r <> 200%Z ->
  let req := build_request u (after_cursor st) b in
  let line := Print (MsgFetching b (downloaded_count st)) in
  fetch_instagram_posts remote u (after_cursor st) b w
    = (World (files w) (S (requests w))
             (trace w ++ [HttpGet req; Print (MsgFailed (status_code r))]),
       Ok JNull) /\
  loop remote (S fuel) u out rsm b st w
    = (World (files w) (S (requests w))
             (trace w ++ [line; HttpGet req; Print (MsgFailed (status_code r));
                          Print MsgNoResponse]),
       Ok Returned) /\
  forall remote',
    remote' (requests w) req = ConnectionFailed ->
    loop remote' (S fuel) u out rsm b st w
      = (World (files w) (S (requests w)) (trace w ++ [line; HttpGet req]),
         Raise RequestException).
Proof.
  intros Hr Hs req line. subst req line.
  split; [|split].
  - apply Z.eqb_neq in Hs.
    rewrite fetch_instagram_posts_eq. cbv zeta. rewrite Hr, Hs.
    now rewrite <- app_assoc.
  - now apply loop_failed_status.
  - intros remote' Hr'.
    rewrite loop_S, iteration_eq, fetch_instagram_posts_eq. cbv zeta.
    cbn [files requests trace]. rewrite Hr'.
    now rewrite <- !app_assoc.
Qed.

Lemma non_200_stops_the_loop_witness :
  let remote := Sample.always (Answered (Response 429 None)) in
  let st := Locals (JArr Sample.hundred) (JStr "abc123") (JInt 100) in
  let req := build_request "natgeo" (JStr "abc123") 50 in
  let line := Print (MsgFetching 50 (JInt 100)) in
  fetch_instagram_posts remote "natgeo" (JStr "abc123") 50 Sample.resumed
    = (World (files Sample.resumed) 1 [HttpGet req; Print (MsgFailed 429)],
       Ok JNull) /\
  loop remote 1 "natgeo" Sample.output_file Sample.resume_file 50 st
       Sample.resumed
    = (World (files Sample.resumed) 1
             [line; HttpGet req; Print (MsgFailed 429); Print MsgNoResponse],
       Ok Returned) /\
  forall remote',
    remote' 0%nat req = ConnectionFailed ->
    loop remote' 1 "natgeo" Sample.output_file Sample.resume_file 50 st
         Sample.resumed
      = (World (files Sample.resumed) 1 [line; HttpGet req],
         Raise RequestException).
Proof.
  intros remote st req line.
  apply (non_200_stops_the_loop remote 0 "natgeo" Sample.output_file
           Sample.resume_file 50 st Sample.resumed (Response 429 None)).
  - reflexivity.
  - simpl. lia.
Defined.

(** C9.  A 200 answer whose body is falsy is returned by the fetcher as it
    is, and the loop takes the branch of the missing response: it prints that
    no response was received and returns with the files as they were, as it
    does after a failed fetch. *)
Theorem falsy_body_stops_the_loop remote fuel u out rsm b st w response :
  remote (requests w) (build_request u (after_cursor st) b)
    = Answered (Response 200 (Some response)) ->
  truthy response = false ->
  let req := build_request u (after_cursor st) b in
  let line := Print (MsgFetching b (downloaded_count st)) in
  fetch_instagram_posts remote u (after_cursor st) b w
    = (World (files w) (S (requests w)) (trace w ++ [HttpGet req]),
       Ok response) /\
  loop remote (S fuel) u out rsm b st w
    = (World (files w) (S (requests w))
             (trace w ++ [line; HttpGet req; Print MsgNoResponse]),
       Ok Returned) /\
  forall remote' r,
    remote' (requests w) req = Answered r ->
    status_code r <> 200%Z ->
    let failed := loop remote' (S fuel) u out rsm b st w in
    let falsy := loop remote (S fuel) u out rsm b st w in
    snd falsy = snd failed /\
    files (fst falsy) = files (fst failed) /\
    last (trace (fst falsy)) = last (trace (fst failed)).
Proof.
  intros Hr Ht req line.
  assert (Hloop : loop remote (S fuel) u out rsm b st w
    = (World (files w) (S (requests w))
             (trace w ++ [line; HttpGet req; Print MsgNoResponse]),
       Ok Returned)).
  { subst req line.
    rewrite loop_S, iteration_eq, fetch_instagram_posts_eq. cbv zeta.
    cbn [files requests trace]. rewrite Hr.
    cbn [status_code Z.eqb Pos.eqb]. unfold response_json. cbn [payload].
    rewrite process_page_falsy; [|exact Ht].
    cbn [files requests trace]. now rewrite <- !app_assoc. }
  split; [|split].
  - subst req. rewrite fetch_instagram_posts_eq. cbv zeta. rewrite Hr.
    reflexivity.
  - exact Hloop.
  - intros remote' r Hr' Hs. cbv zeta. rewrite Hloop.
    rewrite (loop_failed_status remote' fuel u out rsm b st w r Hr' Hs).
    cbn [fst snd files trace]. split; [reflexivity|]. split; [reflexivity|].
    rewrite !last_app. reflexivity.
Qed.

Lemma falsy_body_stops_the_loop_witness :
  let remote := Sample.always (Sample.ok (JObj [])) in
  let req := build_request "natgeo" JNull 50 in
  let line := Print (MsgFetching 50 (JInt 0)) in
  fetch_instagram_posts remote "natgeo" JNull 50 Sample.fresh
    = (World ∅ 1 [HttpGet req], Ok (JObj [])) /\
  loop remote 1 "natgeo" Sample.output_file Sample.resume_file 50 Sample.start
       Sample.fresh
    = (World ∅ 1 [line; HttpGet req; Print MsgNoResponse], Ok Returned) /\
  forall remote' r,
    remote' 0%nat req = Answered r ->
    status_code r <> 200%Z ->
    let failed :=
      loop remote' 1 "natgeo" Sample.output_file Sample.resume_file 50
           Sample.start Sample.fresh in
    let falsy :=
      loop remote 1 "natgeo" Sample.output_file Sample.resume_file 50
           Sample.start Sample.fresh in
    snd falsy = snd failed /\
    files (fst falsy) = files (fst failed) /\
    last (trace (fst falsy)) = last (trace (fst failed)).
Proof.
  intros remote req line.
  apply (falsy_body_stops_the_loop remote 0 "natgeo" Sample.output_file
           Sample.resume_file 50 Sample.start Sample.fresh (JObj [])).
  - reflexivity.
  - reflexivity.
Defined.

(** ** The last page *)

Lemma load_resume_state_cursor_file rsm w cursor count :
  load_resume_state rsm w = (w, Ok (JStr cursor, count)) ->
  exists d, files w !! rsm = Some (Document (JObj d)).
Proof.
  destruct (files w !! rsm) as [f|] eqn:Hf.
  - rewrite (load_resume_state_present _ _ _ Hf).
    destruct f as [| | |v]; try discriminate.
    destruct v; try discriminate. eauto.
  - rewrite (load_resume_state_absent _ _ Hf). discriminate.
Qed.

Lemma load_existing_posts_list_file out w posts :
  load_existing_posts out w = (w, Ok (JArr posts)) -> posts <> [] ->
  files w !! out = Some (Document (JArr posts)).
Proof.
  destruct (files w !! out) as [f|] eqn:Hf.
  - rewrite (load_existing_posts_present _ _ _ Hf).
    destruct f; intros H Hne; inversion H; subst; congruence.
  - rewrite (load_existing_posts_absent _ _ Hf).
    intros H Hne; inversion H; subst; congruence.
Qed.

(** C2.  With the state (abc123, 100) and a collection of 100 posts on disk,
    a page of two edges that says there is no next page is appended and,
    when no string of the 102 posts holds a surrogate, the collection of 102
    posts is written; the function prints that the end was reached and
    returns; no event of the run writes the state file, which still holds
    the cursor abc123. *)
Theorem last_page_keeps_cursor remote fuel u out rsm b w posts response e1 e2
  pi n1 n2 :
  load_resume_state rsm w = (w, Ok (JStr "abc123", JInt 100)) ->
  load_existing_posts out w = (w, Ok (JArr posts)) ->
  List.length posts = 100%nat ->
  remote (requests w) (build_request u (JStr "abc123") b)
    = Answered (Response 200 (Some response)) ->
  get_edges response = Ok (JArr [JObj e1; JObj e2]) ->
  get_page_info response = Ok pi ->
  dict_get pi "has_next_page" JNull = Ok (JBool false) ->
  node_of (JObj e1) = Ok n1 -> node_of (JObj e2) = Ok n2 ->
  encodable (JArr (posts ++ [n1; n2])) = true ->
  exists w' evs,
    iterate_and_save_posts remote (S fuel) u out rsm b w = (w', Ok Returned) /\
    files w' !! out = Some (Document (JArr (posts ++ [n1; n2]))) /\
    load_existing_posts out w' = (w', Ok (JArr (posts ++ [n1; n2]))) /\
    List.length (posts ++ [n1; n2]) = 102%nat /\
    files w' !! rsm = files w !! rsm /\
    load_resume_state rsm w' = (w', Ok (JStr "abc123", JInt 100)) /\
    trace w' = trace w ++ evs /\
    evs = [Print (MsgFetching b (JInt 100));
           HttpGet (build_request u (JStr "abc123") b);
           WriteFile out (JArr (posts ++ [n1; n2]));
           Print (MsgSaved 102 out);
           Print MsgEndOfPages] /\
    Forall (fun e => writes_to rsm e = false) evs /\
    last evs = Some (Print MsgEndOfPages).
Proof.
  intros Hstate Hposts Hlen Hr Hedges Hpi Hmore Hn1 Hn2 Henc.
  destruct (load_resume_state_cursor_file _ _ _ _ Hstate) as [d Hd].
  assert (Hne : posts <> []) by (intros ->; discriminate).
  pose proof (load_existing_posts_list_file _ _ _ Hposts Hne) as Hf.
  assert (Hdiff : out <> rsm) by (intros ->; congruence).
  assert (Hlen' : List.length (posts ++ [n1; n2]) = 102%nat)
    by (rewrite length_app, Hlen; reflexivity).
  rewrite iterate_and_save_posts_eq, Hposts, Hstate. cbn [fst snd].
  rewrite loop_S, iteration_eq, fetch_instagram_posts_eq. cbv zeta.
  cbn [files requests trace after_cursor downloaded_count]. rewrite Hr.
  cbn [status_code Z.eqb Pos.eqb]. unfold response_json. cbn [payload].
  rewrite (process_page_last out rsm response (JArr [JObj e1; JObj e2])
             [JObj e1; JObj e2] (posts ++ [n1; n2]) (JInt 102) pi (JBool false));
    try done.
  2:{ now apply (get_edges_truthy _ _ Hedges). }
  2:{ unfold node_of in Hn1, Hn2. cbn [for_edge_in all_posts downloaded_count].
      rewrite Hn1. cbn [bindR list_append add_one]. rewrite Hn2.
      cbn [bindR list_append add_one]. rewrite <- app_assoc. reflexivity. }
  cbn [files requests trace]. rewrite Hlen'.
  do 2 eexists.
  split; [reflexivity|].
  assert (Hout : forall x (fs : gmap string file),
             <[out := x]> fs !! rsm = fs !! rsm)
    by (intros; now apply lookup_insert_ne).
  split; [|split; [|split; [|split; [|split; [|split; [|split; [|split]]]]]]].
  - cbn [files]. apply lookup_insert_eq.
  - match goal with |- load_existing_posts _ ?w' = _ =>
      rewrite (load_existing_posts_present out w'
                 (Document (JArr (posts ++ [n1; n2]))))
    end; [reflexivity|apply lookup_insert_eq].
  - reflexivity.
  - cbn [files]. apply Hout.
  - match goal with |- load_resume_state _ ?w' = _ =>
      rewrite (load_resume_state_present rsm w' (Document (JObj d)))
    end; [|cbn [files]; now rewrite Hout].
    rewrite (load_resume_state_present _ _ _ Hd) in Hstate.
    injection Hstate as Hc Hn. simpl. now rewrite Hc, Hn.
  - cbn [trace]. rewrite <- !app_assoc. reflexivity.
  - reflexivity.
  - assert (String.eqb out rsm = false) as Hb by now apply String.eqb_neq.
    repeat constructor. simpl. exact Hb.
  - reflexivity.
Qed.

Lemma last_page_keeps_cursor_witness :
  let out := Sample.output_file in
  let rsm := Sample.resume_file in
  let n1 := Sample.post 100 in
  let n2 := Sample.post 101 in
  exists w' evs,
    iterate_and_save_posts (Sample.always (Sample.ok Sample.last_page)) 1
      "natgeo" out rsm 50 Sample.resumed = (w', Ok Returned) /\
    files w' !! out = Some (Document (JArr (Sample.hundred ++ [n1; n2]))) /\
    load_existing_posts out w' = (w', Ok (JArr (Sample.hundred ++ [n1; n2]))) /\
    List.length (Sample.hundred ++ [n1; n2]) = 102%nat /\
    files w' !! rsm = files Sample.resumed !! rsm /\
    load_resume_state rsm w' = (w', Ok (JStr "abc123", JInt 100)) /\
    trace w' = trace Sample.resumed ++ evs /\
    evs = [Print (MsgFetching 50 (JInt 100));
           HttpGet (build_request "natgeo" (JStr "abc123") 50);
           WriteFile out (JArr (Sample.hundred ++ [n1; n2]));
           Print (MsgSaved 102 out);
           Print MsgEndOfPages] /\
    Forall (fun e => writes_to rsm e = false) evs /\
    last evs = Some (Print MsgEndOfPages).
Proof.
  intros out rsm n1 n2.
  apply (last_page_keeps_cursor
           (Sample.always (Sample.ok Sample.last_page)) 0
           "natgeo" out rsm 50 Sample.resumed
           Sample.hundred Sample.last_page
           [("node", Sample.post 100)] [("node", Sample.post 101)]
           (JObj [("has_next_page", JBool false); ("end_cursor", JNull)])
           n1 n2).
  - vm_compute. reflexivity.
  - vm_compute. reflexivity.
  - reflexivity.
  - reflexivity.
  - reflexivity.
  - reflexivity.
  - reflexivity.
  - reflexivity.
  - reflexivity.
  - vm_compute. reflexivity.
Defined.

(** The scenario with a post that json.dump cannot encode: the caption of
    the first new post is a lone surrogate.  The premises of the scenario
    hold; the run raises at the write of the collection, and the posts file,
    cut off, loads as no posts at all. *)
Lemma last_page_keeps_cursor_counterexample :
  let out := Sample.output_file in
  let rsm := Sample.resume_file in
  let w := Sample.resumed in
  let remote := Sample.always (Sample.ok Scenario.odd_last_page) in
  let r := iterate_and_save_posts remote 1 "natgeo" out rsm 50 w in
  load_resume_state rsm w = (w, Ok (JStr "abc123", JInt 100)) /\
  load_existing_posts out w = (w, Ok (JArr Sample.hundred)) /\
  List.length Sample.hundred = 100%nat /\
  remote (requests w) (build_request "natgeo" (JStr "abc123") 50)
    = Answered (Response 200 (Some Scenario.odd_last_page)) /\
  get_edges Scenario.odd_last_page
    = Ok (JArr [Scenario.odd_edge; Sample.edge 101]) /\
  (let+ pi := get_page_info Scenario.odd_last_page in
   dict_get pi "has_next_page" JNull) = Ok (JBool false) /\
  snd r = Raise UnicodeEncodeError /\
  files (fst r) !! out = Some Malformed /\
  load_existing_posts out (fst r) = (fst r, Ok (JArr [])) /\
  files (fst r) !! rsm = files w !! rsm.
Proof. vm_compute. repeat split; reflexivity. Qed.

(** ** The whole run *)

(** C8.  The counts a run writes to the state file never go down: each is at
    least every count written before it in the run, and at least the count
    the run started from. *)
Theorem persisted_count_only_increases remote fuel u out rsm b w cursor n :
  load_resume_state rsm w = (w, Ok (cursor, JInt n)) ->
  exists evs counts,
    trace (fst (iterate_and_save_posts remote fuel u out rsm b w))
      = trace w ++ evs /\
    written_counts rsm evs = map JInt counts /\
    StronglySorted Z.le counts /\
    Forall (Z.le n) counts.
Proof.
  intros Hs. rewrite iterate_and_save_posts_eq, Hs. cbn [fst snd].
  destruct (snd (load_existing_posts out w)) as [posts|e].
  - destruct (loop_counts remote u out rsm b fuel (Locals posts cursor (JInt n))
                w n eq_refl) as (evs & counts & Ht & Hc & Hall & Hsorted).
    exists evs, counts. split; [exact Ht|]. split; [exact Hc|]. split.
    + clear -Hsorted. induction Hsorted as [|c cs _ IH Hc]; constructor.
      * exact IH.
      * eapply Forall_impl; [exact Hc|]. simpl. intros; lia.
    + eapply Forall_impl; [exact Hall|]. simpl. intros; lia.
  - exists [], []. cbn [fst]. rewrite app_nil_r.
    repeat split; constructor.
Qed.

Lemma persisted_count_only_increases_witness :
  exists evs counts,
    trace (fst (iterate_and_save_posts Sample.three_pages 5 "natgeo"
                  Sample.output_file Sample.resume_file 50 Sample.fresh))
      = trace Sample.fresh ++ evs /\
    written_counts Sample.resume_file evs = map JInt counts /\
    StronglySorted Z.le counts /\
    Forall (Z.le 0) counts.
Proof.
  apply (persisted_count_only_increases Sample.three_pages 5 "natgeo"
           Sample.output_file Sample.resume_file 50 Sample.fresh JNull 0).
  reflexivity.
Defined.

(** The sample run: three pages, two state writes, four posts. *)
Example three_pages_run :
  let r := iterate_and_save_posts Sample.three_pages 5 "natgeo"
             Sample.output_file Sample.resume_file 50 Sample.fresh in
  snd r = Ok Returned /\
  requests (fst r) = 3%nat /\
  written_counts Sample.resume_file (trace (fst r)) = [JInt 2; JInt 3] /\
  files (fst r) !! Sample.output_file
    = Some (Document (JArr (map Sample.post [1; 2; 3; 4]%Z))) /\
  files (fst r) !! Sample.resume_file
    = Some (Document (state_dict (JStr "c2") (JInt 3))).
Proof. vm_compute. repeat split; reflexivity. Qed.

(** A run still going after [N] iterations finds its local variables again
    in the two files. *)
Lemma loop_running_persisted remote u out rsm b N : forall st w wN stN,
  out <> rsm ->
  loop remote N u out rsm b st w = (wN, Ok (Running stN)) ->
  (st = stN /\ w = wN) \/
  (load_existing_posts out wN = (wN, Ok (all_posts stN)) /\
   load_resume_state rsm wN
     = (wN, Ok (after_cursor stN, downloaded_count stN))).
Proof.
  induction N as [|N IH]; intros st w wN stN Hne H.
  - left. simpl in H. unfold ret in H. inversion H; auto.
  - right. rewrite loop_S in H.
    destruct (iteration remote u out rsm b st w) as [w' [[st'|]|e]] eqn:Hit;
      try discriminate.
    destruct (IH _ _ _ _ Hne H) as [[-> ->]|Hp]; [|exact Hp].
    exact (iteration_persisted _ _ _ _ _ _ _ _ _ Hne Hit).
Qed.

(** C3.  Against a stable remote, and with the posts and the state kept in
    two files: when a run is stopped after [N] iterations that each wrote the
    posts and the state, a new run from the files it left ends as the
    uninterrupted run does, with the same collection on disk. *)
Theorem resume_gives_same_collection remote N fuel u out rsm b w0 wN stN w :
  stable remote ->
  out <> rsm ->
  iterate_and_save_posts remote N u out rsm b w0 = (wN, Ok (Running stN)) ->
  files w = files wN ->
  let full := iterate_and_save_posts remote (N + fuel) u out rsm b w0 in
  let rerun := iterate_and_save_posts remote fuel u out rsm b w in
  files (fst rerun) !! out = files (fst full) !! out /\
  files (fst rerun) = files (fst full) /\
  snd rerun = snd full.
Proof.
  intros Hstable Hne Hrun Hfiles full rerun. subst full rerun.
  rewrite iterate_and_save_posts_eq in Hrun.
  rewrite (iterate_and_save_posts_eq remote (N + fuel)).
  destruct (snd (load_existing_posts out w0)) as [posts0|] eqn:Hp0;
    [|discriminate].
  destruct (snd (load_resume_state rsm w0)) as [state0|] eqn:Hs0;
    [|discriminate].
  rewrite (loop_split _ _ _ _ _ _ fuel _ _ _ _ Hrun).
  assert (Hload :
    snd (load_existing_posts out wN) = Ok (all_posts stN) /\
    snd (load_resume_state rsm wN)
      = Ok (after_cursor stN, downloaded_count stN)).
  { destruct (loop_running_persisted _ _ _ _ _ _ _ _ _ _ Hne Hrun)
      as [[<- <-]|[H1 H2]].
    - rewrite Hp0, Hs0. destruct state0. auto.
    - rewrite H1, H2. auto. }
  destruct Hload as [Hp Hs].
  rewrite iterate_and_save_posts_eq.
  destruct (uniform_same_files _ w wN (uniform_load_existing_posts out) Hfiles)
    as [_ ->].
  destruct (uniform_same_files _ w wN (uniform_load_resume_state rsm) Hfiles)
    as [_ ->].
  rewrite Hp, Hs. cbn [fst snd].
  replace (Locals (all_posts stN) (after_cursor stN) (downloaded_count stN))
    with stN by now destruct stN.
  destruct (uniform_same_files _ w wN
              (uniform_loop remote u out rsm b fuel stN Hstable) Hfiles)
    as [Hf Hr].
  rewrite Hf, Hr. auto.
Qed.

Lemma resume_gives_same_collection_witness :
  let run := iterate_and_save_posts Sample.three_pages in
  let u := "natgeo" in
  let out := Sample.output_file in
  let rsm := Sample.resume_file in
  let stopped := fst (run 2%nat u out rsm 50%Z Sample.fresh) in
  let full := run (2 + 3)%nat u out rsm 50%Z Sample.fresh in
  let rerun := run 3%nat u out rsm 50%Z (Sample.disk (files stopped)) in
  files (fst rerun) !! out = files (fst full) !! out /\
  files (fst rerun) = files (fst full) /\
  snd rerun = snd full.
Proof.
  intros run u out rsm stopped full rerun.
  apply (resume_gives_same_collection Sample.three_pages 2 3 u out rsm 50
           Sample.fresh stopped
           (Locals (JArr (map Sample.post [1; 2; 3]%Z)) (JStr "c2") (JInt 3))
           (Sample.disk (files stopped))).
  - intros n m req. reflexivity.
  - vm_compute. discriminate.
  - vm_compute. reflexivity.
  - reflexivity.
Defined.

(** * Further properties *)

(** ** The state store and the post store *)

(** X1.  A state file that holds an object with neither key is a fresh start:
    it loads as the cursor [None] and the count 0, as a missing file does. *)
Theorem load_resume_state_without_keys path w d :
  files w !! path = Some (Document (JObj d)) ->
  dict_lookup "after_cursor" d = None ->
  dict_lookup "post_count" d = None ->
  load_resume_state path w = (w, Ok (JNull, JInt 0)) /\
  forall w0, files w0 !! path = None ->
    snd (load_resume_state path w0) = snd (load_resume_state path w).
Proof.
  intros Hf Hc Hn.
  assert (H : load_resume_state path w = (w, Ok (JNull, JInt 0))).
  { rewrite (load_resume_state_present _ _ _ Hf). simpl. now rewrite Hc, Hn. }
  split; [exact H|].
  intros w0 H0. now rewrite H, (load_resume_state_absent _ _ H0).
Qed.

Lemma load_resume_state_without_keys_witness :
  let w := Sample.disk (<["state.json" := Document (JObj [("version", JInt 1)])]> ∅) in
  load_resume_state "state.json" w = (w, Ok (JNull, JInt 0)) /\
  forall w0, files w0 !! "state.json" = None ->
    snd (load_resume_state "state.json" w0) = snd (load_resume_state "state.json" w).
Proof.
  intros w.
  apply (load_resume_state_without_keys "state.json" w [("version", JInt 1)]);
    reflexivity.
Defined.

(** X2.  A state file that holds a JSON document other than an object makes
    [load_resume_state] raise [AttributeError]: the value has no [get]. *)
Theorem load_resume_state_not_an_object path w v :
  files w !! path = Some (Document v) ->
  is_dict v = false ->
  load_resume_state path w = (w, Raise AttributeError).
Proof.
  intros Hf Hv. rewrite (load_resume_state_present _ _ _ Hf).
  destruct v; try reflexivity. discriminate.
Qed.

Lemma load_resume_state_not_an_object_witness :
  let w := Sample.disk (<["state.json" := Document (JArr [])]> ∅) in
  load_resume_state "state.json" w = (w, Raise AttributeError).
Proof.
  intros w.
  apply (load_resume_state_not_an_object "state.json" w (JArr []));
    reflexivity.
Defined.

(** X3.  What [save_resume_state] saves, [load_resume_state] loads, for any
    cursor and count with no surrogate in a string, whatever the file held
    before.  With a surrogate in one of them the save raises
    [UnicodeEncodeError], and what is left of the file is not JSON:
    loading it raises [JSONDecodeError]. *)
Theorem save_then_load_resume_state path cursor count w :
  let r := save_resume_state path cursor count w in
  (encodable cursor = true -> encodable count = true ->
     snd r = Ok tt /\
     files (fst r) !! path = Some (Document (state_dict cursor count)) /\
     load_resume_state path (fst r) = (fst r, Ok (cursor, count))) /\
  (encodable cursor && encodable count = false ->
     snd r = Raise UnicodeEncodeError /\
     files (fst r) !! path = Some Malformed /\
     load_resume_state path (fst r) = (fst r, Raise JSONDecodeError)).
Proof.
  intros r. subst r. unfold save_resume_state, write_json.
  rewrite encodable_state_dict. split.
  - intros -> ->. cbn [andb fst snd files].
    split; [reflexivity|]. split; [apply lookup_insert_eq|].
    match goal with |- load_resume_state _ ?w' = _ =>
      rewrite (load_resume_state_present path w'
                 (Document (state_dict cursor count)))
    end; [reflexivity|apply lookup_insert_eq].
  - intros ->. cbn [fst snd files truncated state_dict].
    split; [reflexivity|]. split; [apply lookup_insert_eq|].
    match goal with |- load_resume_state _ ?w' = _ =>
      rewrite (load_resume_state_present path w' Malformed)
    end; [reflexivity|apply lookup_insert_eq].
Qed.

Lemma save_then_load_resume_state_witness :
  let path := Sample.resume_file in
  (let r := save_resume_state path (JStr "c1") (JInt 2) Sample.resumed in
   snd r = Ok tt /\
   files (fst r) !! path = Some (Document (state_dict (JStr "c1") (JInt 2))) /\
   load_resume_state path (fst r) = (fst r, Ok (JStr "c1", JInt 2))) /\
  (let r := save_resume_state path (JStr Scenario.odd_cursor) (JInt 2)
              Sample.resumed in
   snd r = Raise UnicodeEncodeError /\
   files (fst r) !! path = Some Malformed /\
   load_resume_state path (fst r) = (fst r, Raise JSONDecodeError)).
Proof.
  intros path. split.
  - apply (save_then_load_resume_state path (JStr "c1") (JInt 2)
             Sample.resumed); reflexivity.
  - apply (save_then_load_resume_state path (JStr Scenario.odd_cursor)
             (JInt 2) Sample.resumed). reflexivity.
Defined.

(** X4.  The handler of [load_existing_posts] covers the JSON decoding error
    only: a posts file whose bytes are not UTF-8 text raises
    [UnicodeDecodeError]. *)
Theorem load_existing_posts_not_utf8 path w :
  files w !! path = Some Undecodable ->
  load_existing_posts path w = (w, Raise UnicodeDecodeError).
Proof.
  intros Hf. now rewrite (load_existing_posts_present _ _ _ Hf).
Qed.

Lemma load_existing_posts_not_utf8_witness :
  let w := Sample.disk (<["posts.json" := Undecodable]> ∅) in
  load_existing_posts "posts.json" w = (w, Raise UnicodeDecodeError).
Proof.
  intros w. apply (load_existing_posts_not_utf8 "posts.json" w). reflexivity.
Defined.

(** ** The fetcher *)

(** X5.  The one request [fetch_instagram_posts] sends carries the cursor
    as its [after] variable when the cursor is truthy, and no [after]
    variable when it is falsy (an empty string, [None], 0); the result is
    read off the answer to that request.  With a falsy cursor the fetcher
    therefore does what it does without a cursor: it asks for the first
    page. *)
Theorem fetch_instagram_posts_drops_falsy_cursor remote u cursor b w :
  exists d rest,
    trace (fst (fetch_instagram_posts remote u cursor b w))
      = trace w ++ HttpGet (request_with (JObj d)) :: rest /\
    (rest = [] \/ exists status, rest = [Print (MsgFailed status)]) /\
    dict_lookup "after" d = (if truthy cursor then Some cursor else None) /\
    dict_lookup "username" d = Some (JStr u) /\
    dict_lookup "first" d = Some (JInt b) /\
    snd (fetch_instagram_posts remote u cursor b w)
      = match remote (requests w) (request_with (JObj d)) with
        | ConnectionFailed => Raise RequestException
        | Answered r =>
            if (status_code r =? 200)%Z then response_json r else Ok JNull
        end /\
    (truthy cursor = false ->
       fetch_instagram_posts remote u cursor b w
         = fetch_instagram_posts remote u JNull b w).
Proof.
  assert (Hreq : exists d,
    build_request u cursor b = request_with (JObj d) /\
    dict_lookup "after" d = (if truthy cursor then Some cursor else None) /\
    dict_lookup "username" d = Some (JStr u) /\
    dict_lookup "first" d = Some (JInt b)).
  { unfold build_request, variables, request_with.
    destruct (truthy cursor); eexists; (split; [reflexivity|]);
      repeat split; reflexivity. }
  destruct Hreq as (d & Hreq & Hafter & Hu & Hb).
  assert (Hfalsy : truthy cursor = false ->
    fetch_instagram_posts remote u cursor b w
      = fetch_instagram_posts remote u JNull b w).
  { intros H. rewrite !fetch_instagram_posts_eq.
    unfold build_request, variables. now rewrite H. }
  pose proof (fetch_instagram_posts_eq remote u cursor b w) as Heq.
  cbv zeta in Heq. rewrite Hreq in Heq.
  exists d.
  destruct (remote (requests w) (request_with (JObj d))) as [|r].
  - exists []. repeat (split; [rewrite ?Heq; auto|]). exact Hfalsy.
  - destruct (status_code r =? 200)%Z.
    + exists []. repeat (split; [rewrite ?Heq; auto|]). exact Hfalsy.
    + exists [Print (MsgFailed (status_code r))].
      repeat (split; [rewrite ?Heq; cbn [fst snd trace];
                      rewrite <- ?app_assoc; eauto|]).
      exact Hfalsy.
Qed.

(** X6.  A 200 answer whose body is not JSON is not taken for a missing
    response: [response.json()] raises, the exception leaves the loop, and
    the files are as they were. *)
Theorem not_json_body_raises remote fuel u out rsm b st w :
  remote (requests w) (build_request u (after_cursor st) b)
    = Answered (Response 200 None) ->
  loop remote (S fuel) u out rsm b st w
    = (World (files w) (S (requests w))
             (trace w ++ [Print (MsgFetching b (downloaded_count st));
                          HttpGet (build_request u (after_cursor st) b)]),
       Raise JSONDecodeError).
Proof.
  intros Hr.
  rewrite loop_S, iteration_eq, fetch_instagram_posts_eq. cbv zeta.
  cbn [files requests trace]. rewrite Hr. cbn. now rewrite <- app_assoc.
Qed.

Lemma not_json_body_raises_witness :
  loop (Sample.always (Answered (Response 200 None))) 3 "natgeo"
       Sample.output_file Sample.resume_file 50 Sample.start Sample.fresh
    = (World ∅ 1 [Print (MsgFetching 50 (JInt 0));
                  HttpGet (build_request "natgeo" JNull 50)],
       Raise JSONDecodeError).
Proof.
  apply (not_json_body_raises (Sample.always (Answered (Response 200 None))) 2
           "natgeo" Sample.output_file Sample.resume_file 50 Sample.start
           Sample.fresh).
  reflexivity.
Defined.

Lemma fetch_instagram_posts_drops_falsy_cursor_witness :
  exists d rest,
    trace (fst (fetch_instagram_posts Sample.three_pages "natgeo" (JStr "c1")
                  50 Sample.fresh))
      = trace Sample.fresh ++ HttpGet (request_with (JObj d)) :: rest /\
    (rest = [] \/ exists status, rest = [Print (MsgFailed status)]) /\
    dict_lookup "after" d
      = (if truthy (JStr "c1") then Some (JStr "c1") else None) /\
    dict_lookup "username" d = Some (JStr "natgeo") /\
    dict_lookup "first" d = Some (JInt 50) /\
    snd (fetch_instagram_posts Sample.three_pages "natgeo" (JStr "c1") 50
           Sample.fresh)
      = match Sample.three_pages (requests Sample.fresh)
                (request_with (JObj d)) with
        | ConnectionFailed => Raise RequestException
        | Answered r =>
            if (status_code r =? 200)%Z then response_json r else Ok JNull
        end /\
    (truthy (JStr "c1") = false ->
       fetch_instagram_posts Sample.three_pages "natgeo" (JStr "c1") 50
         Sample.fresh
         = fetch_instagram_posts Sample.three_pages "natgeo" JNull 50
             Sample.fresh).
Proof.
  apply (fetch_instagram_posts_drops_falsy_cursor Sample.three_pages
           "natgeo" (JStr "c1") 50 Sample.fresh).
Defined.

(** ** What a run writes *)

Lemma no_write_grows l out rsm evs :
  Forall (fun e => is_write e = false) evs -> Forall (grows_from l out rsm) evs.
Proof.
  induction 1 as [|e evs He _ IH]; constructor; [|exact IH].
  destruct e; simpl; try exact I; discriminate.
Qed.

Lemma no_write_no_failure evs :
  Forall (fun e => is_write e = false) evs ->
  Forall (fun e => is_failed_write e = false) evs.
Proof.
  induction 1 as [|e evs He _ IH]; constructor; [|exact IH].
  destruct e; try reflexivity. discriminate.
Qed.

Lemma grows_from_prefix l extra out rsm evs :
  Forall (grows_from (l ++ extra) out rsm) evs -> Forall (grows_from l out rsm) evs.
Proof.
  induction 1 as [|e evs He _ IH]; constructor; [|exact IH].
  destruct e as [| |p v|p]; simpl in *; try exact I; [|exact He].
  destruct He as [[-> [more ->]]|H]; [left|right; exact H].
  split; [reflexivity|]. exists (extra ++ more). now rewrite app_assoc.
Qed.

(** The files and the writes of the part of the body that follows the
    fetch. *)
Lemma process_page_writes out rsm response st w :
  exists evs fs' r,
    process_page out rsm response st w
      = (World fs' (requests w) (trace w ++ evs), r) /\
    (forall p, p <> out -> p <> rsm -> fs' !! p = files w !! p) /\
    (forall l, all_posts st = JArr l -> Forall (grows_from l out rsm) evs) /\
    fails_last evs r.
Proof.
  destruct (process_page_cases out rsm response st w)
    as [(evs & r & Heq & Hnw & _)
       |(edges & items & l & nodes & count' & _ & _ & _ & _ & _ & Hl & _ & _
         & [(_ & Heq)
           |[(_ & evs & r & Heq & Hnw & _)
            |[(_ & pi & more & cursor & _ & _ & _ & _ & _ & Heq)
             |(_ & pi & more & cursor & _ & _ & _ & _ & _ & Heq)]]])];
    rewrite Heq; do 3 eexists; (split; [reflexivity|]);
    (split; [|split]).
  - reflexivity.
  - intros l _. now apply no_write_grows.
  - left. now apply no_write_no_failure.
  - intros p Ho _. now rewrite lookup_insert_ne.
  - intros l0 _. constructor; [left; reflexivity|constructor].
  - right. exists [], out. repeat split. constructor.
  - intros p Ho _. now rewrite lookup_insert_ne.
  - intros l0 Hl0. rewrite Hl in Hl0. injection Hl0 as <-.
    constructor; [left; eauto|]. constructor; [exact I|].
    now apply no_write_grows.
  - left. constructor; [reflexivity|]. constructor; [reflexivity|].
    now apply no_write_no_failure.
  - intros p Ho Hr. rewrite lookup_insert_ne, lookup_insert_ne; done.
  - intros l0 Hl0. rewrite Hl in Hl0. injection Hl0 as <-.
    constructor; [left; eauto|]. constructor; [exact I|].
    constructor; [right; reflexivity|constructor].
  - right. eexists [_; _], rsm. repeat split. repeat constructor.
  - intros p Ho Hr. rewrite lookup_insert_ne, lookup_insert_ne; done.
  - intros l0 Hl0. rewrite Hl in Hl0. injection Hl0 as <-.
    constructor; [left; eauto|]. constructor; [exact I|].
    constructor; [right; eauto|constructor].
  - left. repeat constructor.
Qed.

Lemma fails_last_after {A} pre evs (r : res A) :
  Forall (fun e => is_failed_write e = false) pre ->
  fails_last evs r -> fails_last (pre ++ evs) r.
Proof.
  intros Hpre [H|(pre' & p & -> & H & ->)].
  - left. apply Forall_app. auto.
  - right. exists (pre ++ pre'), p. rewrite app_assoc.
    repeat split. apply Forall_app. auto.
Qed.

Lemma iteration_writes remote u out rsm b st w :
  exists evs fs' r,
    iteration remote u out rsm b st w
      = (World fs' (S (requests w)) (trace w ++ evs), r) /\
    (forall p, p <> out -> p <> rsm -> fs' !! p = files w !! p) /\
    (forall l, all_posts st = JArr l -> Forall (grows_from l out rsm) evs) /\
    fails_last evs r.
Proof.
  rewrite iteration_eq, fetch_instagram_posts_eq. cbv zeta.
  cbn [files requests trace].
  assert (Hpage : forall response pre,
    Forall (fun e => is_write e = false) pre ->
    exists evs fs' r,
      process_page out rsm response st
        (World (files w) (S (requests w)) (trace w ++ pre))
        = (World fs' (S (requests w)) (trace w ++ evs), r) /\
      (forall p, p <> out -> p <> rsm -> fs' !! p = files w !! p) /\
      (forall l, all_posts st = JArr l -> Forall (grows_from l out rsm) evs) /\
      fails_last evs r).
  { intros response pre Hpre.
    destruct (process_page_writes out rsm response st
                (World (files w) (S (requests w)) (trace w ++ pre)))
      as (evs & fs' & r & Heq & Hframe & Hgrow & Hfail).
    cbn [files requests trace] in *. rewrite Heq, <- app_assoc.
    do 3 eexists. split; [reflexivity|]. split; [exact Hframe|]. split.
    - intros l Hl. apply Forall_app. split; [now apply no_write_grows|auto].
    - apply fails_last_after; [now apply no_write_no_failure|exact Hfail]. }
  destruct (remote (requests w) _) as [|r].
  - do 3 eexists. rewrite <- app_assoc. split; [reflexivity|].
    split; [reflexivity|]. split; [intros l _|left]; repeat constructor.
  - destruct (status_code r =? 200)%Z.
    + unfold response_json. destruct (payload r) as [v|].
      * rewrite <- app_assoc. apply Hpage. repeat constructor.
      * do 3 eexists. rewrite <- app_assoc. split; [reflexivity|].
        split; [reflexivity|]. split; [intros l _|left]; repeat constructor.
    + rewrite <- !app_assoc. apply Hpage. repeat constructor.
Qed.

Lemma loop_writes remote u out rsm b fuel : forall st w,
  exists evs,
    trace (fst (loop remote fuel u out rsm b st w)) = trace w ++ evs /\
    (forall p, p <> out -> p <> rsm ->
       files (fst (loop remote fuel u out rsm b st w)) !! p = files w !! p) /\
    (forall l, all_posts st = JArr l -> Forall (grows_from l out rsm) evs) /\
    fails_last evs (snd (loop remote fuel u out rsm b st w)).
Proof.
  induction fuel as [|fuel IH]; intros st w.
  - exists []. simpl. rewrite app_nil_r. repeat split.
    + intros; constructor.
    + left. constructor.
  - rewrite loop_S.
    destruct (iteration_writes remote u out rsm b st w)
      as (evs & fs' & r & Heq & Hframe & Hgrow & Hfail).
    rewrite Heq. destruct r as [[st'|]|e].
    + destruct (IH st' (World fs' (S (requests w)) (trace w ++ evs)))
        as (evs' & Ht & Hframe' & Hgrow' & Hfail').
      exists (evs ++ evs'). rewrite Ht. cbn [trace files] in *.
      rewrite app_assoc. split; [reflexivity|]. split; [|split].
      * intros p Ho Hr. rewrite Hframe' by done. now apply Hframe.
      * intros l Hl. apply Forall_app. split; [now apply Hgrow|].
        destruct (iteration_continue _ _ _ _ _ _ _ _ _ Heq)
          as (_ & l0 & nodes & _ & Hl0 & Hl' & _).
        rewrite Hl in Hl0. injection Hl0 as <-.
        apply (grows_from_prefix l nodes). now apply Hgrow'.
      * apply fails_last_after; [|exact Hfail'].
        destruct Hfail as [H|(pre & p & _ & _ & H)]; [exact H|discriminate].
    + exists evs. cbn [fst snd trace files].
      repeat split; auto.
      destruct Hfail as [H|(pre & p & _ & _ & H)]; [now left|discriminate].
    + exists evs. cbn [fst snd trace files].
      repeat split; auto.
      destruct Hfail as [H|(pre & p & -> & Hp & H)]; [now left|].
      right. exists pre, p. repeat split; auto.
      injection H as ->. reflexivity.
Qed.



(** X8.  A run touches no file but its two: every other path holds after the
    run what it held before, however the run ends. *)
Theorem run_leaves_other_files remote fuel u out rsm b w p :
  p <> out -> p <> rsm ->
  files (fst (iterate_and_save_posts remote fuel u out rsm b w)) !! p
    = files w !! p.
Proof.
  intros Ho Hr. rewrite iterate_and_save_posts_eq.
  destruct (snd (load_existing_posts out w)) as [posts|e]; [|reflexivity].
  destruct (snd (load_resume_state rsm w)) as [state|e]; [|reflexivity].
  destruct (loop_writes remote u out rsm b fuel
              (Locals posts (fst state) (snd state)) w) as (_ & _ & Hframe & _).
  now apply Hframe.
Qed.

Lemma run_leaves_other_files_witness :
  files (fst (iterate_and_save_posts Sample.three_pages 5 "natgeo"
                Sample.output_file Sample.resume_file 50 Scenario.ten_saved))
    !! "notes.txt"
    = files Scenario.ten_saved !! "notes.txt".
Proof.
  apply (run_leaves_other_files Sample.three_pages 5 "natgeo"
           Sample.output_file Sample.resume_file 50 Scenario.ten_saved
           "notes.txt"); vm_compute; discriminate.
Defined.

(** X9.  An iteration makes one request: a run makes at most as many requests
    as it has iterations, and exactly as many when it is still going. *)
Theorem one_request_per_iteration remote fuel u out rsm b : forall st w,
  let r := loop remote fuel u out rsm b st w in
  (requests w <= requests (fst r) <= requests w + fuel)%nat /\
  (forall st', snd r = Ok (Running st') ->
     requests (fst r) = (requests w + fuel)%nat) /\
  (fuel <> 0%nat -> requests w < requests (fst r))%nat.
Proof.
  induction fuel as [|fuel IH]; intros st w; cbv zeta.
  - simpl. repeat split; intros; lia.
  - rewrite loop_S.
    destruct (iteration_trace remote u out rsm b st w)
      as (evs & fs' & r & Heq & _).
    rewrite Heq. destruct r as [[st'|]|e].
    + specialize (IH st' (World fs' (S (requests w)) (trace w ++ evs))).
      cbv zeta in IH. cbn [requests] in IH.
      destruct IH as (Hb & Hrun & _).
      repeat split; try lia.
      intros st'' H. rewrite (Hrun st'' H). lia.
    + cbn [fst snd requests]. repeat split; intros; try lia; discriminate.
    + cbn [fst snd requests]. repeat split; intros; try lia; discriminate.
Qed.

(** ** The count and the collection *)

(** A run that is still going has added to its collection as many posts as
    it has added to its count, and at least one per iteration. *)
Lemma loop_running_grows remote u out rsm b fuel : forall st w w' st' l n,
  loop remote fuel u out rsm b st w = (w', Ok (Running st')) ->
  all_posts st = JArr l -> downloaded_count st = JInt n ->
  exists extra,
    all_posts st' = JArr (l ++ extra) /\
    downloaded_count st' = JInt (n + Z.of_nat (List.length extra)) /\
    (fuel <= List.length extra)%nat.
Proof.
  induction fuel as [|fuel IH]; intros st w w' st' l n H Hl Hn.
  - simpl in H. unfold ret in H. injection H as <- <-.
    exists []. rewrite app_nil_r, Z.add_0_r. simpl. auto.
  - rewrite loop_S in H.
    destruct (iteration remote u out rsm b st w) as [w1 [[st1|]|e]] eqn:Hit;
      try discriminate.
    destruct (iteration_continue _ _ _ _ _ _ _ _ _ Hit)
      as (items & l0 & nodes & Hne & Hl0 & Hl1 & Hfor & _).
    rewrite Hl in Hl0. injection Hl0 as <-.
    pose proof Hfor as Hc. rewrite Hn in Hc. apply for_edge_in_count in Hc.
    rewrite Hn in Hfor.
    destruct (for_edge_in_list _ _ _ _ _ Hfor) as (nodes' & Heq & HF).
    injection Heq as Heq. apply app_inv_head in Heq. subst nodes'.
    apply Forall2_length in HF.
    destruct (IH _ _ _ _ _ _ H Hl1 Hc) as (extra & Ha & Hd & Hle).
    exists (nodes ++ extra). rewrite app_assoc. split; [exact Ha|].
    rewrite Hd, length_app, <- HF. split; [f_equal; lia|].
    destruct items; [done|]. simpl in *. lia.
Qed.

(** X10.  When a run starts from a disk whose count is the number of posts
    stored, that stays so at every point where both files have been written:
    a run still going after [fuel] iterations left a state file whose count
    is the number of posts in the posts file, at least [fuel] more than at
    the start. *)
Theorem count_is_number_of_posts remote fuel u out rsm b w w' st' l cursor :
  out <> rsm ->
  load_existing_posts out w = (w, Ok (JArr l)) ->
  load_resume_state rsm w = (w, Ok (cursor, JInt (Z.of_nat (List.length l)))) ->
  iterate_and_save_posts remote fuel u out rsm b w = (w', Ok (Running st')) ->
  exists l' cursor',
    load_existing_posts out w' = (w', Ok (JArr l')) /\
    load_resume_state rsm w'
      = (w', Ok (cursor', JInt (Z.of_nat (List.length l')))) /\
    (List.length l + fuel <= List.length l')%nat.
Proof.
  intros Hne Hl Hs Hrun.
  rewrite iterate_and_save_posts_eq, Hl, Hs in Hrun. cbn [fst snd] in Hrun.
  destruct (loop_running_grows _ _ _ _ _ _ _ _ _ _ _ _ Hrun eq_refl eq_refl)
    as (extra & Ha & Hd & Hle).
  exists (l ++ extra), (after_cursor st').
  assert (Hlen : JInt (Z.of_nat (List.length (l ++ extra))) = downloaded_count st').
  { rewrite Hd, length_app. f_equal. lia. }
  rewrite Hlen, <- Ha.
  destruct (loop_running_persisted _ _ _ _ _ _ _ _ _ _ Hne Hrun)
    as [[<- <-]|[H1 H2]].
  - cbn [all_posts after_cursor downloaded_count] in *.
    injection Ha as Ha.
    assert (extra = []) as -> by (destruct extra; [done|];
      apply (f_equal (@List.length json)) in Ha;
      rewrite length_app in Ha; simpl in Ha; lia).
    rewrite app_nil_r in *. simpl in Hle.
    split; [exact Hl|]. split; [|rewrite ?length_app; simpl in *; lia].
    exact Hs.
  - split; [exact H1|]. split; [exact H2|]. rewrite length_app. lia.
Qed.

Lemma count_is_number_of_posts_witness :
  let run := iterate_and_save_posts Sample.three_pages 2 "natgeo"
               Sample.output_file Sample.resume_file 50 Sample.fresh in
  exists l' cursor',
    load_existing_posts Sample.output_file (fst run) = (fst run, Ok (JArr l')) /\
    load_resume_state Sample.resume_file (fst run)
      = (fst run, Ok (cursor', JInt (Z.of_nat (List.length l')))) /\
    (List.length (@nil json) + 2 <= List.length l')%nat.
Proof.
  intros run.
  apply (count_is_number_of_posts Sample.three_pages 2 "natgeo"
           Sample.output_file Sample.resume_file 50 Sample.fresh (fst run)
           (Locals (JArr (map Sample.post [1; 2; 3]%Z)) (JStr "c2") (JInt 3))
           [] JNull).
  - vm_compute. discriminate.
  - reflexivity.
  - reflexivity.
  - vm_compute. reflexivity.
Defined.

(** ** The order of the two writes *)

Lemma process_page_continue_trace out rsm response st w w' st' :
  process_page out rsm response st w = (w', Ok (Continue st')) ->
  exists n,
    trace w' = trace w ++
      [WriteFile out (all_posts st'); Print (MsgSaved n out);
       WriteFile rsm (state_dict (after_cursor st') (downloaded_count st'))].
Proof.
  intros H.
  destruct (process_page_cases out rsm response st w)
    as [(evs & r & Heq & _ & Hr)
       |(edges & items & l & nodes & count' & _ & _ & _ & _ & _ & _ & _ & _
         & [(_ & Heq)
           |[(_ & evs & r & Heq & _ & Hr)
            |[(_ & pi & more & cursor & _ & _ & _ & _ & _ & Heq)
             |(_ & pi & more & cursor & _ & _ & _ & _ & _ & Heq)]]])];
    rewrite Heq in H; inversion H; subst.
  - destruct (Hr st'). congruence.
  - destruct (Hr st'). congruence.
  - eexists. reflexivity.
Qed.

(** X11.  In an iteration that goes on, the posts are written before the
    state, and these are its only writes and its last events: at no point is
    the state file ahead of the posts file. *)
Theorem posts_are_written_before_state remote u out rsm b st w w' st' :
  iteration remote u out rsm b st w = (w', Ok (Continue st')) ->
  exists pre n,
    trace w' = trace w ++ pre ++
      [WriteFile out (all_posts st'); Print (MsgSaved n out);
       WriteFile rsm (state_dict (after_cursor st') (downloaded_count st'))] /\
    Forall (fun e => is_write e = false) pre.
Proof.
  rewrite iteration_eq, fetch_instagram_posts_eq. cbv zeta.
  cbn [files requests trace].
  destruct (remote _ _) as [|r]; [discriminate|].
  destruct (status_code r =? 200)%Z.
  - destruct (response_json r); [|discriminate].
    intros H. apply process_page_continue_trace in H. destruct H as [n H].
    cbn [trace] in H.
    exists [Print (MsgFetching b (downloaded_count st));
            HttpGet (build_request u (after_cursor st) b)], n.
    split; [rewrite H, <- !app_assoc; reflexivity|repeat constructor].
  - intros H. apply process_page_continue_trace in H. destruct H as [n H].
    cbn [trace] in H.
    exists [Print (MsgFetching b (downloaded_count st));
            HttpGet (build_request u (after_cursor st) b);
            Print (MsgFailed (status_code r))], n.
    split; [rewrite H, <- !app_assoc; reflexivity|repeat constructor].
Qed.

Lemma posts_are_written_before_state_witness :
  let w' := fst (iteration Sample.three_pages "natgeo" Sample.output_file
                   Sample.resume_file 50 Sample.start Sample.fresh) in
  let st' := Locals (JArr (map Sample.post [1; 2]%Z)) (JStr "c1") (JInt 2) in
  exists pre n,
    trace w' = trace Sample.fresh ++ pre ++
      [WriteFile Sample.output_file (all_posts st');
       Print (MsgSaved n Sample.output_file);
       WriteFile Sample.resume_file
         (state_dict (after_cursor st') (downloaded_count st'))] /\
    Forall (fun e => is_write e = false) pre.
Proof.
  intros w' st'.
  apply (posts_are_written_before_state Sample.three_pages "natgeo"
           Sample.output_file Sample.resume_file 50 Sample.start Sample.fresh
           w' st').
  vm_compute. reflexivity.
Defined.

(** ** A page that cannot be appended *)

Lemma for_edge_in_bad_edge items :
  Exists (fun e => is_dict e = false) items ->
  forall a c, exists e, for_edge_in items a c = Raise e.
Proof.
  induction 1 as [edge rest Hbad|edge rest _ IH]; intros a c; simpl.
  - destruct edge; try discriminate; simpl; eauto.
  - destruct (dict_get edge "node" (JObj [])) as [node|e]; simpl; [|eauto].
    destruct (list_append a node) as [a'|e]; simpl; [|eauto].
    destruct (add_one c) as [c'|e]; simpl; [|eauto].
    apply IH.
Qed.

Lemma process_page_for_raises out rsm response edges items e st w :
  truthy response = true ->
  get_edges response = Ok edges -> truthy edges = true ->
  py_iter edges = Ok items ->
  for_edge_in items (all_posts st) (downloaded_count st) = Raise e ->
  process_page out rsm response st w = (w, Raise e).
Proof.
  intros H1 H2 H3 H4 H5. unfold process_page.
  rewrite H1. cbn [negb]. rewrite bind_lift, H2, H3. cbn [negb].
  now rewrite bind_lift, H4, bind_lift, H5.
Qed.

(** The loop when the [for] loop over a fetched page raises. *)
Lemma loop_for_raises remote fuel u out rsm b st w response items e :
  remote (requests w) (build_request u (after_cursor st) b)
    = Answered (Response 200 (Some response)) ->
  get_edges response = Ok (JArr items) -> items <> [] ->
  for_edge_in items (all_posts st) (downloaded_count st) = Raise e ->
  loop remote (S fuel) u out rsm b st w
    = (World (files w) (S (requests w))
             (trace w ++ [Print (MsgFetching b (downloaded_count st));
                          HttpGet (build_request u (after_cursor st) b)]),
       Raise e).
Proof.
  intros Hr He Hne Hfor.
  assert (Ht : truthy (JArr items) = true) by (destruct items; done).
  rewrite loop_S, iteration_eq, fetch_instagram_posts_eq. cbv zeta.
  cbn [files requests trace]. rewrite Hr.
  cbn [status_code Z.eqb Pos.eqb]. unfold response_json. cbn [payload].
  rewrite (process_page_for_raises out rsm response (JArr items) items e);
    try done.
  - now rewrite <- app_assoc.
  - now apply (get_edges_truthy _ _ He).
Qed.

(** X12.  A page with an edge that is not an object is not appended in part:
    the run raises, and neither file is written, whatever came before the
    bad edge in the page. *)
Theorem bad_edge_writes_nothing remote fuel u out rsm b st w response items :
  remote (requests w) (build_request u (after_cursor st) b)
    = Answered (Response 200 (Some response)) ->
  get_edges response = Ok (JArr items) ->
  Exists (fun e => is_dict e = false) items ->
  exists e,
    loop remote (S fuel) u out rsm b st w
      = (World (files w) (S (requests w))
               (trace w ++ [Print (MsgFetching b (downloaded_count st));
                            HttpGet (build_request u (after_cursor st) b)]),
         Raise e).
Proof.
  intros Hr He Hbad.
  destruct (for_edge_in_bad_edge items Hbad (all_posts st) (downloaded_count st))
    as [e Hfor].
  exists e. apply (loop_for_raises _ _ _ _ _ _ _ _ response items); try done.
  intros ->. inversion Hbad.
Qed.

Lemma bad_edge_writes_nothing_witness :
  exists e,
    loop (Sample.always (Sample.ok Scenario.broken_page)) 4 "natgeo"
         Sample.output_file Sample.resume_file 50 Scenario.ten_loaded
         Scenario.ten_saved
      = (World (files Scenario.ten_saved) 1
               (trace Scenario.ten_saved ++
                  [Print (MsgFetching 50 (JInt 10));
                   HttpGet (build_request "natgeo" (JStr "c9") 50)]),
         Raise e).
Proof.
  apply (bad_edge_writes_nothing
           (Sample.always (Sample.ok Scenario.broken_page)) 3 "natgeo"
           Sample.output_file Sample.resume_file 50 Scenario.ten_loaded
           Scenario.ten_saved Scenario.broken_page
           [Sample.edge 1; JStr "oops"]).
  - reflexivity.
  - reflexivity.
  - apply Exists_cons_tl. apply Exists_cons_hd. reflexivity.
Defined.

(** X13.  When the collection the loop holds is not a list (a posts file
    with another JSON document), the first page with an edge raises
    [AttributeError] at [append], and neither file is written. *)
Theorem not_a_list_collection_raises remote fuel u out rsm b st w response d rest :
  (forall l, all_posts st <> JArr l) ->
  remote (requests w) (build_request u (after_cursor st) b)
    = Answered (Response 200 (Some response)) ->
  get_edges response = Ok (JArr (JObj d :: rest)) ->
  loop remote (S fuel) u out rsm b st w
    = (World (files w) (S (requests w))
             (trace w ++ [Print (MsgFetching b (downloaded_count st));
                          HttpGet (build_request u (after_cursor st) b)]),
       Raise AttributeError).
Proof.
  intros Hl Hr He.
  apply (loop_for_raises _ _ _ _ _ _ _ _ response (JObj d :: rest));
    try done.
  simpl. destruct (all_posts st); try reflexivity. destruct (Hl l eq_refl).
Qed.

Lemma not_a_list_collection_raises_witness :
  let st := Locals (JObj [("posts", JArr [])]) JNull (JInt 0) in
  loop Sample.three_pages 2 "natgeo" Sample.output_file Sample.resume_file 50
       st Sample.fresh
    = (World ∅ 1 [Print (MsgFetching 50 (JInt 0));
                  HttpGet (build_request "natgeo" JNull 50)],
       Raise AttributeError).
Proof.
  intros st.
  apply (not_a_list_collection_raises Sample.three_pages 1 "natgeo"
           Sample.output_file Sample.resume_file 50 st Sample.fresh
           (Sample.page [Sample.edge 1; Sample.edge 2] true (JStr "c1"))
           [("node", Sample.post 1)] [Sample.edge 2]).
  - intros l. discriminate.
  - reflexivity.
  - reflexivity.
Defined.



(** ** Whole pages *)

Lemma for_edge_in_nodes items nodes :
  Forall2 (fun e n => node_of e = Ok n) items nodes ->
  forall l n,
    for_edge_in items (JArr l) (JInt n)
      = Ok (JArr (l ++ nodes), JInt (n + Z.of_nat (List.length nodes))).
Proof.
  induction 1 as [|edge node items nodes Hn _ IH]; intros l n; simpl.
  - now rewrite app_nil_r, Z.add_0_r.
  - unfold node_of in Hn. rewrite Hn. simpl. rewrite IH, <- app_assoc.
    do 3 f_equal. lia.
Qed.

Lemma process_page_next out rsm response edges items posts count' pi more
  cursor st w :
  truthy response = true ->
  get_edges response = Ok edges -> truthy edges = true ->
  py_iter edges = Ok items ->
  for_edge_in items (all_posts st) (downloaded_count st)
    = Ok (JArr posts, count') ->
  encodable (JArr posts) = true ->
  get_page_info response = Ok pi ->
  dict_get pi "has_next_page" JNull = Ok more -> truthy more = true ->
  dict_get pi "end_cursor" JNull = Ok cursor ->
  encodable (state_dict cursor count') = true ->
  process_page out rsm response st w =
    (World (<[rsm := Document (state_dict cursor count')]>
              (<[out := Document (JArr posts)]> (files w)))
           (requests w)
           (trace w ++ [WriteFile out (JArr posts);
                        Print (MsgSaved (Z.of_nat (List.length posts)) out);
                        WriteFile rsm (state_dict cursor count')]),
     Ok (Continue (Locals (JArr posts) cursor count'))).
Proof.
  intros H1 H2 H3 H4 H5 Hp H6 H7 H8 H9 Hs. unfold process_page.
  rewrite H1. cbn [negb]. rewrite bind_lift, H2, H3. cbn [negb].
  rewrite bind_lift, H4, bind_lift, H5. cbv zeta. cbn [fst snd].
  rewrite bind_write_json, Hp, bind_lift. cbn [py_len].
  rewrite bind_print, bind_lift, H6, bind_lift, H7, H8, bind_lift, H9.
  rewrite bind_save_resume_state, Hs.
  unfold ret. cbn [files requests trace]. rewrite <- !app_assoc. reflexivity.
Qed.

(** A run whose first page is a last page. *)
Lemma run_of_last_page remote fuel u out rsm b w l cursor n response items
  nodes pi more :
  load_existing_posts out w = (w, Ok (JArr l)) ->
  load_resume_state rsm w = (w, Ok (cursor, JInt n)) ->
  remote (requests w) (build_request u cursor b)
    = Answered (Response 200 (Some response)) ->
  get_edges response = Ok (JArr items) -> items <> [] ->
  Forall2 (fun e n => node_of e = Ok n) items nodes ->
  encodable (JArr (l ++ nodes)) = true ->
  get_page_info response = Ok pi ->
  dict_get pi "has_next_page" JNull = Ok more -> truthy more = false ->
  iterate_and_save_posts remote (S fuel) u out rsm b w
    = (World (<[out := Document (JArr (l ++ nodes))]> (files w))
             (S (requests w))
             (trace w ++
                [Print (MsgFetching b (JInt n));
                 HttpGet (build_request u cursor b);
                 WriteFile out (JArr (l ++ nodes));
                 Print (MsgSaved (Z.of_nat (List.length (l ++ nodes))) out);
                 Print MsgEndOfPages]),
       Ok Returned).
Proof.
  intros Hl Hs Hr He Hne HF Henc Hpi Hm Hmt.
  assert (Ht : truthy (JArr items) = true) by (destruct items; done).
  rewrite iterate_and_save_posts_eq, Hl, Hs. cbn [fst snd].
  rewrite loop_S, iteration_eq, fetch_instagram_posts_eq. cbv zeta.
  cbn [files requests trace after_cursor downloaded_count]. rewrite Hr.
  cbn [status_code Z.eqb Pos.eqb]. unfold response_json. cbn [payload].
  rewrite (process_page_last out rsm response (JArr items) items (l ++ nodes)
             (JInt (n + Z.of_nat (List.length nodes))) pi more); try done.
  - cbn [files requests trace]. now rewrite <- !app_assoc.
  - now apply (get_edges_truthy _ _ He).
  - now apply for_edge_in_nodes.
Qed.

(** X15.  A run that ended on the last page did not record that it ended:
    the state file is as it was, so, against a stable remote, the next run
    fetches that page again and appends its posts a second time (for posts
    with no surrogate in a string, which both runs can write). *)
Theorem rerun_after_the_end_duplicates remote fuel1 fuel2 u out rsm b w l
  cursor n response items nodes pi more :
  stable remote ->
  out <> rsm ->
  load_existing_posts out w = (w, Ok (JArr l)) ->
  load_resume_state rsm w = (w, Ok (cursor, JInt n)) ->
  remote (requests w) (build_request u cursor b)
    = Answered (Response 200 (Some response)) ->
  get_edges response = Ok (JArr items) -> items <> [] ->
  Forall2 (fun e n => node_of e = Ok n) items nodes ->
  encodable (JArr l) = true -> encodable (JArr nodes) = true ->
  get_page_info response = Ok pi ->
  dict_get pi "has_next_page" JNull = Ok more -> truthy more = false ->
  let first := iterate_and_save_posts remote (S fuel1) u out rsm b w in
  let second := iterate_and_save_posts remote (S fuel2) u out rsm b (fst first) in
  snd first = Ok Returned /\
  files (fst first) !! out = Some (Document (JArr (l ++ nodes))) /\
  files (fst first) !! rsm = files w !! rsm /\
  snd second = Ok Returned /\
  files (fst second) !! out = Some (Document (JArr (l ++ nodes ++ nodes))) /\
  files (fst second) !! rsm = files w !! rsm.
Proof.
  intros Hst Hne Hl Hs Hr He Hi HF Hel Hen Hpi Hm Hmt first second.
  assert (He1 : encodable (JArr (l ++ nodes)) = true)
    by (rewrite encodable_app, Hel, Hen; reflexivity).
  assert (He2 : encodable (JArr ((l ++ nodes) ++ nodes)) = true)
    by (rewrite encodable_app, He1, Hen; reflexivity).
  assert (Hfirst := run_of_last_page remote fuel1 u out rsm b w l cursor n
                      response items nodes pi more Hl Hs Hr He Hi HF He1
                      Hpi Hm Hmt).
  fold first in Hfirst.
  set (w1 := fst first) in *.
  assert (Hf1 : files w1 = <[out := Document (JArr (l ++ nodes))]> (files w))
    by (unfold w1; now rewrite Hfirst).
  assert (Hr1 : files w1 !! rsm = files w !! rsm)
    by (rewrite Hf1; now apply lookup_insert_ne).
  assert (Hl1 : load_existing_posts out w1 = (w1, Ok (JArr (l ++ nodes)))).
  { rewrite (load_existing_posts_present out w1 (Document (JArr (l ++ nodes))));
      [reflexivity|]. rewrite Hf1. apply lookup_insert_eq. }
  assert (Hs1 : load_resume_state rsm w1 = (w1, Ok (cursor, JInt n))).
  { destruct (files w !! rsm) as [f|] eqn:Hf.
    - rewrite (load_resume_state_present rsm w1 f) by now rewrite Hr1.
      rewrite (load_resume_state_present _ _ _ Hf) in Hs.
      injection Hs as Hs. now rewrite Hs.
    - rewrite (load_resume_state_absent rsm w1) by now rewrite Hr1.
      rewrite (load_resume_state_absent _ _ Hf) in Hs.
      injection Hs as <- <-. reflexivity. }
  assert (Hrem : remote (requests w1) (build_request u cursor b)
                 = Answered (Response 200 (Some response)))
    by (rewrite (Hst _ (requests w)); exact Hr).
  assert (Hsecond := run_of_last_page remote fuel2 u out rsm b w1 (l ++ nodes)
                       cursor n response items nodes pi more
                       Hl1 Hs1 Hrem He Hi HF He2 Hpi Hm Hmt).
  fold second in Hsecond.
  split; [now rewrite Hfirst|]. split; [rewrite Hf1; apply lookup_insert_eq|].
  split; [exact Hr1|]. rewrite Hsecond. cbn [fst snd files].
  split; [reflexivity|]. split.
  - rewrite <- app_assoc. apply lookup_insert_eq.
  - rewrite lookup_insert_ne; done.
Qed.

Lemma rerun_after_the_end_duplicates_witness :
  let remote := Sample.always (Sample.ok Sample.last_page) in
  let run := iterate_and_save_posts remote 1 "natgeo" Sample.output_file
               Sample.resume_file 50 in
  let first := run Sample.resumed in
  let second := run (fst first) in
  let nodes := [Sample.post 100; Sample.post 101] in
  snd first = Ok Returned /\
  files (fst first) !! Sample.output_file
    = Some (Document (JArr (Sample.hundred ++ nodes))) /\
  files (fst first) !! Sample.resume_file
    = files Sample.resumed !! Sample.resume_file /\
  snd second = Ok Returned /\
  files (fst second) !! Sample.output_file
    = Some (Document (JArr (Sample.hundred ++ nodes ++ nodes))) /\
  files (fst second) !! Sample.resume_file
    = files Sample.resumed !! Sample.resume_file.
Proof.
  intros remote run first second nodes.
  apply (rerun_after_the_end_duplicates remote 0 0 "natgeo"
           Sample.output_file Sample.resume_file 50 Sample.resumed
           Sample.hundred (JStr "abc123") 100 Sample.last_page
           [Sample.edge 100; Sample.edge 101] nodes
           (JObj [("has_next_page", JBool false); ("end_cursor", JNull)])
           (JBool false)).
  - intros n m req. reflexivity.
  - vm_compute. discriminate.
  - vm_compute. reflexivity.
  - vm_compute. reflexivity.
  - reflexivity.
  - reflexivity.
  - discriminate.
  - repeat constructor.
  - vm_compute. reflexivity.
  - reflexivity.
  - reflexivity.
  - reflexivity.
  - reflexivity.
Defined.

(** X16.  Nothing bounds the loop but the remote: when every answer is a
    page with edges that says there is a next page (and that the loop can
    write: no surrogate in its posts or its cursor), the run never returns.
    After any number of iterations it is still going, having made that many
    requests and counted at least that many posts. *)
Theorem endless_remote_never_returns remote u out rsm b fuel : forall st w l n,
  (forall k req, exists response,
      remote k req = Answered (Response 200 (Some response)) /\
      next_page response) ->
  all_posts st = JArr l -> encodable (JArr l) = true ->
  downloaded_count st = JInt n ->
  exists w' st' n',
    loop remote fuel u out rsm b st w = (w', Ok (Running st')) /\
    requests w' = (requests w + fuel)%nat /\
    downloaded_count st' = JInt n' /\
    (n + Z.of_nat fuel <= n')%Z.
Proof.
  induction fuel as [|fuel IH]; intros st w l n Hr Hl Hel Hn.
  - exists w, st, n. simpl. rewrite Nat.add_0_r. repeat split; auto. lia.
  - destruct (Hr (requests w) (build_request u (after_cursor st) b))
      as (response & Hans & items & nodes & pi & more & cursor
          & He & Hi & HF & Hen & Hpi & Hm & Hmt & Hc & Hec).
    assert (Ht : truthy (JArr items) = true) by (destruct items; done).
    assert (Hep : encodable (JArr (l ++ nodes)) = true)
      by (rewrite encodable_app, Hel, Hen; reflexivity).
    rewrite loop_S, iteration_eq, fetch_instagram_posts_eq. cbv zeta.
    cbn [files requests trace]. rewrite Hans.
    cbn [status_code Z.eqb Pos.eqb]. unfold response_json. cbn [payload].
    rewrite (process_page_next out rsm response (JArr items) items (l ++ nodes)
               (JInt (n + Z.of_nat (List.length nodes))) pi more cursor);
      try done.
    2:{ now apply (get_edges_truthy _ _ He). }
    2:{ rewrite Hl, Hn. now apply for_edge_in_nodes. }
    2:{ rewrite encodable_state_dict, Hec. reflexivity. }
    cbn [files requests trace].
    match goal with |- context [loop _ _ _ _ _ _ ?st1 ?w1] =>
      destruct (IH st1 w1 (l ++ nodes) (n + Z.of_nat (List.length nodes))%Z
                  Hr eq_refl Hep eq_refl)
        as (w' & st' & n' & Hloop & Hreq & Hcount & Hle)
    end.
    exists w', st', n'. split; [exact Hloop|]. cbn [requests] in Hreq.
    split; [lia|]. split; [exact Hcount|].
    apply Forall2_length in HF.
    destruct items; [done|]. simpl in HF. lia.
Qed.

Lemma endless_remote_never_returns_witness :
  exists w' st' n',
    loop Scenario.endless 25 "natgeo" Sample.output_file Sample.resume_file 50
         Sample.start Sample.fresh = (w', Ok (Running st')) /\
    requests w' = (requests Sample.fresh + 25)%nat /\
    downloaded_count st' = JInt n' /\
    (0 + Z.of_nat 25 <= n')%Z.
Proof.
  apply (endless_remote_never_returns Scenario.endless "natgeo"
           Sample.output_file Sample.resume_file 50 25 Sample.start
           Sample.fresh [] 0).
  - intros k req. exists Scenario.endless_page. split; [reflexivity|].
    exists [Sample.edge 7], [Sample.post 7],
      (JObj [("has_next_page", JBool true); ("end_cursor", JStr "next")]),
      (JBool true), (JStr "next").
    repeat split; try reflexivity; try discriminate.
    repeat constructor.
  - reflexivity.
  - reflexivity.
  - reflexivity.
Defined.

(** X17.  A page whose connection has no [page_info] is taken for the last
    page: its posts are appended and (having no surrogate in a string)
    written, the state file is not, and the run returns. *)
Theorem page_without_page_info_is_last remote fuel u out rsm b w l cursor n
  dr dd dc items nodes :
  load_existing_posts out w = (w, Ok (JArr l)) ->
  load_resume_state rsm w = (w, Ok (cursor, JInt n)) ->
  remote (requests w) (build_request u cursor b)
    = Answered (Response 200 (Some (JObj dr))) ->
  dict_lookup "data" dr = Some (JObj dd) ->
  dict_lookup connection dd = Some (JObj dc) ->
  dict_lookup "edges" dc = Some (JArr items) ->
  dict_lookup "page_info" dc = None ->
  items <> [] ->
  Forall2 (fun e n => node_of e = Ok n) items nodes ->
  encodable (JArr (l ++ nodes)) = true ->
  iterate_and_save_posts remote (S fuel) u out rsm b w
    = (World (<[out := Document (JArr (l ++ nodes))]> (files w))
             (S (requests w))
             (trace w ++
                [Print (MsgFetching b (JInt n));
                 HttpGet (build_request u cursor b);
                 WriteFile out (JArr (l ++ nodes));
                 Print (MsgSaved (Z.of_nat (List.length (l ++ nodes))) out);
                 Print MsgEndOfPages]),
       Ok Returned).
Proof.
  intros Hl Hs Hr Hd Hc He Hp Hi HF Henc.
  apply (run_of_last_page remote fuel u out rsm b w l cursor n (JObj dr)
           items nodes (JObj []) JNull); try done.
  - unfold get_edges. simpl. rewrite Hd. simpl. rewrite Hc. simpl.
    now rewrite He.
  - unfold get_page_info. simpl. rewrite Hd. simpl. rewrite Hc. simpl.
    now rewrite Hp.
Qed.

Lemma page_without_page_info_is_last_witness :
  let body := JObj [("data", JObj [(connection,
                       JObj [("edges", JArr [Sample.edge 1])])])] in
  let nodes := [Sample.post 1] in
  iterate_and_save_posts (Sample.always (Sample.ok body)) 3 "natgeo"
    Sample.output_file Sample.resume_file 50 Scenario.ten_saved
    = (World (<[Sample.output_file := Document (JArr (Scenario.ten ++ nodes))]>
                (files Scenario.ten_saved))
             1
             (trace Scenario.ten_saved ++
                [Print (MsgFetching 50 (JInt 10));
                 HttpGet (build_request "natgeo" (JStr "c9") 50);
                 WriteFile Sample.output_file (JArr (Scenario.ten ++ nodes));
                 Print (MsgSaved (Z.of_nat (List.length (Scenario.ten ++ nodes)))
                          Sample.output_file);
                 Print MsgEndOfPages]),
       Ok Returned).
Proof.
  intros body nodes.
  apply (page_without_page_info_is_last (Sample.always (Sample.ok body)) 2
           "natgeo" Sample.output_file Sample.resume_file 50 Scenario.ten_saved
           Scenario.ten (JStr "c9") 10
           [("data", JObj [(connection, JObj [("edges", JArr [Sample.edge 1])])])]
           [(connection, JObj [("edges", JArr [Sample.edge 1])])]
           [("edges", JArr [Sample.edge 1])]
           [Sample.edge 1] nodes).
  - reflexivity.
  - reflexivity.
  - reflexivity.
  - reflexivity.
  - reflexivity.
  - reflexivity.
  - reflexivity.
  - discriminate.
  - repeat constructor.
  - vm_compute. reflexivity.
Defined.

(** ** The standalone loader *)

(** X18.  [load_json_file] never raises, and what it returns is a list or
    [None]: a list only when the file, read as UTF-8 or else as latin-1,
    holds a JSON list, which is then the list returned. *)
Theorem load_json_file_list_or_none fs file_path latin1 :
  exists v,
    snd (load_json_file fs file_path latin1) = Ok v /\
    (v = JNull \/
     exists l, v = JArr l /\
       (fs !! file_path = Some (Document (JArr l)) \/
        (fs !! file_path = Some Undecodable /\ latin1 = Ok (JArr l)))).
Proof.
  unfold load_json_file, open_and_load.
  destruct (fs !! file_path) as [[| | |data]|] eqn:Hf; simpl.
  - destruct latin1 as [data|e]; [|destruct e; simpl; exists JNull; auto].
    destruct data; simpl; try solve [exists JNull; auto].
    eexists. split; [reflexivity|]. right. eauto.
  - exists JNull; auto.
  - exists JNull; auto.
  - destruct data; simpl; try solve [exists JNull; auto].
    eexists. split; [reflexivity|]. right. eauto.
  - exists JNull; auto.
Qed.

(** X19.  What the loop leaves in the posts file, [load_json_file] returns:
    after an iteration that goes on, it gives back the collection the loop
    holds, and [None] for the state file, which holds an object. *)
Theorem load_json_file_reads_the_posts remote u out rsm b st w w' st' latin1 :
  out <> rsm ->
  iteration remote u out rsm b st w = (w', Ok (Continue st')) ->
  load_json_file (files w') out latin1 = ([LineIsList], Ok (all_posts st')) /\
  load_json_file (files w') rsm latin1
    = ([LineNotList; LineType "<class 'dict'>"], Ok JNull).
Proof.
  intros Hne H. apply iteration_continue in H.
  destruct H as (_ & l & nodes & _ & _ & Hl & _ & Hf).
  unfold load_json_file, open_and_load. rewrite Hf.
  rewrite lookup_insert_eq, lookup_insert_ne, lookup_insert_eq by done.
  rewrite Hl. split; reflexivity.
Qed.

Lemma load_json_file_reads_the_posts_witness :
  let w' := fst (iteration Sample.three_pages "natgeo" Sample.output_file
                   Sample.resume_file 50 Sample.start Sample.fresh) in
  let st' := Locals (JArr (map Sample.post [1; 2]%Z)) (JStr "c1") (JInt 2) in
  load_json_file (files w') Sample.output_file (Raise JSONDecodeError)
    = ([LineIsList], Ok (all_posts st')) /\
  load_json_file (files w') Sample.resume_file (Raise JSONDecodeError)
    = ([LineNotList; LineType "<class 'dict'>"], Ok JNull).
Proof.
  intros w' st'.
  apply (load_json_file_reads_the_posts Sample.three_pages "natgeo"
           Sample.output_file Sample.resume_file 50 Sample.start Sample.fresh
           w' st' (Raise JSONDecodeError)).
  - vm_compute. discriminate.
  - vm_compute. reflexivity.
Defined.
